(** * MRToolGH: the comment classifier and the cache refresher

    A shallow embedding of [data-fetcher.js] (class [GitHubDataFetcher]) and
    of the classifier duplicated in [github-server.js], with the properties
    the specification states about them.

    Conventions of the embedding:
    - a JavaScript string is the list of its UTF-16 code units;
    - [null]/[undefined] is [None];
    - a regular expression literal is a term of [regex], and [RegExp.test]
      is a backtracking matcher over it;
    - [Date.now()], the [gh] subprocess and the file system are effects: the
      functions that use them live in a monad carrying the number of clock
      readings made so far and the state of the two cache files, and they may
      throw.  Console output is not modelled;
    - the answers of [gh] are records with the fields the code reads: the
      shape the CLI documents for the [--json] fields and API routes named
      in the commands. *)

From Stdlib Require Import List ZArith NArith Bool String Ascii Lia.
From Stdlib Require Import DecimalString.
Import ListNotations.
Open Scope Z_scope.

(* ===================================================================== *)
(** ** JavaScript strings *)
(* ===================================================================== *)

Definition jsstring := list N.

(** A string literal of the source, all of whose characters are ASCII. *)
Definition js (s : string) : jsstring :=
  map N_of_ascii (list_ascii_of_string s).

Fixpoint jsstring_eqb (a b : jsstring) : bool :=
  match a, b with
  | [], [] => true
  | x :: a', y :: b' => N.eqb x y && jsstring_eqb a' b'
  | _, _ => false
  end.

Definition isAscii (c : N) : bool := N.ltb c 128.

(** What [String.prototype.toLowerCase] does to a code unit below 128. *)
Definition asciiLower (c : N) : N :=
  if N.leb 65 c && N.leb c 90 then N.add c 32 else c.

(** [!s] for a value that is a string or [null]/[undefined]. *)
Definition falsy (s : option jsstring) : bool :=
  match s with
  | None => true
  | Some [] => true
  | Some (_ :: _) => false
  end.

(* ===================================================================== *)
(** ** Regular expressions: the fragment the pattern tables use *)
(* ===================================================================== *)

Module RegExp.

Inductive regex : Type :=
| Chars (cs : jsstring)          (* a run of literal characters *)
| Disj (r1 r2 : regex)           (* r1|r2 *)
| Conc (r1 r2 : regex)           (* r1 r2 *)
| Group (r : regex)              (* ( r ) *)
| WordBoundary.                  (* \b *)

(** ECMAScript's WordCharacters (no [i]/[u] flag): a-z A-Z 0-9 _ *)
Definition isWordCharacter (c : N) : bool :=
  (N.leb 97 c && N.leb c 122) || (N.leb 65 c && N.leb c 90)
  || (N.leb 48 c && N.leb c 57) || N.eqb c 95.

(** ECMAScript's IsWordChar(e): false at -1 and at the input length. *)
Definition IsWordChar (input : jsstring) (e : Z) : bool :=
  if e <? 0 then false
  else match nth_error input (Z.to_nat e) with
       | Some c => isWordCharacter c
       | None => false
       end.

Fixpoint startsWith (input cs : jsstring) : bool :=
  match cs, input with
  | [], _ => true
  | c :: cs', x :: input' => N.eqb c x && startsWith input' cs'
  | _ :: _, [] => false
  end.

(** [ends r input i]: the end positions of the matches of [r] that start
    at position [i], in the order in which backtracking tries them. *)
Fixpoint ends (r : regex) (input : jsstring) (i : nat) : list nat :=
  match r with
  | Chars cs =>
      if startsWith (skipn i input) cs then [(i + List.length cs)%nat] else []
  | Disj r1 r2 => ends r1 input i ++ ends r2 input i
  | Conc r1 r2 => flat_map (ends r2 input) (ends r1 input i)
  | Group r' => ends r' input i
  | WordBoundary =>
      if xorb (IsWordChar input (Z.of_nat i - 1)) (IsWordChar input (Z.of_nat i))
      then [i] else []
  end.

Definition matchesAt (r : regex) (input : jsstring) (i : nat) : bool :=
  match ends r input i with
  | [] => false
  | _ :: _ => true
  end.

(** [RegExp.prototype.test] of a regex without the [g] or [y] flag: the
    match is attempted at every index from 0 to the length of the input. *)
Definition test (r : regex) (input : jsstring) : bool :=
  existsb (matchesAt r input) (seq 0 (S (List.length input))).

(** a|b|c *)
Fixpoint alternatives (alts : list string) : regex :=
  match alts with
  | [] => Chars []
  | [a] => Chars (js a)
  | a :: rest => Disj (Chars (js a)) (alternatives rest)
  end.

(** The literal [/\b(a|b|c)\b/]. *)
Definition words (alts : list string) : regex :=
  Conc WordBoundary (Conc (Group (alternatives alts)) WordBoundary).

End RegExp.

(* ===================================================================== *)
(** ** The classifier *)
(* ===================================================================== *)

Inductive ActionType : Type :=
| fix_required | improvement_needed | suggestion | question | request.

Inductive Severity : Type := high | medium | low.

(** The object [isCommentActionable] returns: [{ actionable, type, severity }],
    the last two absent from [{ actionable: false }]. *)
Record Classification : Type := mkClassification {
  actionable : bool;
  type : option ActionType;
  severity : option Severity
}.

Definition notActionable : Classification :=
  mkClassification false None None.

Definition verdict (t : ActionType) (s : Severity) : Classification :=
  mkClassification true (Some t) (Some s).

(** [for (const pattern of patterns) if (pattern.test(body)) return ...]:
    does the loop reach its [return]? *)
Fixpoint anyPatternMatches (patterns : list RegExp.regex) (body : jsstring) : bool :=
  match patterns with
  | [] => false
  | pattern :: rest =>
      if RegExp.test pattern body then true else anyPatternMatches rest body
  end.

(** data-fetcher.js, [GitHubDataFetcher.isCommentActionable]. *)
Module DataFetcherClassifier.
Import RegExp.

Definition highSeverityPatterns : list regex :=
  [ words ["fix"; "error"; "bug"; "broken"; "issue"; "problem"; "wrong"];
    words ["security"; "vulnerability"; "exploit"; "dangerous"];
    words ["performance"; "slow"; "inefficient"; "optimize"];
    words ["memory leak"; "deadlock"; "race condition"] ]%string.

Definition mediumSeverityPatterns : list regex :=
  [ words ["should"; "must"; "need to"; "have to"; "required"];
    words ["refactor"; "restructure"; "reorganize"; "cleanup"];
    words ["test"; "testing"; "unit test"; "integration test"];
    words ["documentation"; "docs"; "comment"; "explain"];
    words ["style"; "format"; "convention"; "standard"] ]%string.

Definition lowSeverityPatterns : list regex :=
  [ words ["consider"; "suggest"; "might"; "could"; "perhaps"];
    words ["improvement"; "enhancement"; "better"];
    words ["question"; "clarification"; "understand"];
    words ["naming"; "variable"; "function name"] ]%string.

Definition questionPatterns : list regex :=
  [ Chars (js "?");
    words ["why"; "how"; "what"; "when"; "where"; "which"];
    words ["can you"; "could you"; "would you"] ]%string.

Definition requestPatterns : list regex :=
  [ words ["please"; "add"; "remove"; "change"; "update"; "modify"];
    words ["implement"; "create"; "build"; "develop"] ]%string.

Definition isCommentActionable (toLowerCase : jsstring -> jsstring)
    (commentBody : option jsstring) : Classification :=
  match commentBody with
  | None => notActionable
  | Some text =>
      if falsy commentBody then notActionable
      else
        let body := toLowerCase text in
        if anyPatternMatches highSeverityPatterns body
        then verdict fix_required high
        else if anyPatternMatches mediumSeverityPatterns body
        then verdict improvement_needed medium
        else if anyPatternMatches lowSeverityPatterns body
        then verdict suggestion low
        else if anyPatternMatches questionPatterns body
        then verdict question medium
        else if anyPatternMatches requestPatterns body
        then verdict request medium
        else notActionable
  end.

End DataFetcherClassifier.

(** github-server.js, the free function [isCommentActionable]. *)
Module GithubServerClassifier.
Import RegExp.

Definition highSeverityPatterns : list regex :=
  [ words ["fix"; "error"; "bug"; "broken"; "issue"; "problem"; "wrong"];
    words ["security"; "vulnerability"; "exploit"; "dangerous"];
    words ["performance"; "slow"; "inefficient"; "optimize"];
    words ["memory leak"; "deadlock"; "race condition"] ]%string.

Definition mediumSeverityPatterns : list regex :=
  [ words ["should"; "must"; "need to"; "have to"; "required"];
    words ["refactor"; "restructure"; "reorganize"; "cleanup"];
    words ["test"; "testing"; "unit test"; "integration test"];
    words ["documentation"; "docs"; "comment"; "explain"];
    words ["style"; "format"; "convention"; "standard"] ]%string.

Definition lowSeverityPatterns : list regex :=
  [ words ["consider"; "suggest"; "might"; "could"; "perhaps"];
    words ["improvement"; "enhancement"; "better"];
    words ["question"; "clarification"; "understand"];
    words ["naming"; "variable"; "function name"] ]%string.

Definition questionPatterns : list regex :=
  [ Chars (js "?");
    words ["why"; "how"; "what"; "when"; "where"; "which"];
    words ["can you"; "could you"; "would you"] ]%string.

Definition requestPatterns : list regex :=
  [ words ["please"; "add"; "remove"; "change"; "update"; "modify"];
    words ["implement"; "create"; "build"; "develop"] ]%string.

Definition isCommentActionable (toLowerCase : jsstring -> jsstring)
    (commentBody : option jsstring) : Classification :=
  match commentBody with
  | None => notActionable
  | Some text =>
      if falsy commentBody then notActionable
      else
        let body := toLowerCase text in
        if anyPatternMatches highSeverityPatterns body
        then verdict fix_required high
        else if anyPatternMatches mediumSeverityPatterns body
        then verdict improvement_needed medium
        else if anyPatternMatches lowSeverityPatterns body
        then verdict suggestion low
        else if anyPatternMatches questionPatterns body
        then verdict question medium
        else if anyPatternMatches requestPatterns body
        then verdict request medium
        else notActionable
  end.

End GithubServerClassifier.

(* ===================================================================== *)
(** ** Data fetched from the [gh] CLI and data written to the cache *)
(* ===================================================================== *)

(** A date string, kept as the time value [new Date(s)] gives it, in
    milliseconds since the epoch; [None] is an Invalid Date (time value NaN). *)
Definition timestamp := option Z.

(** [new Date(a) >= new Date(b)]: false as soon as one side is NaN. *)
Definition date_ge (a b : timestamp) : bool :=
  match a, b with
  | Some x, Some y => y <=? x
  | _, _ => false
  end.

(** REST ids are numbers, the ids [gh pr view --json] prints are strings. *)
Inductive ident : Type :=
| IdNumber (n : Z)
| IdString (s : jsstring).

(** [gh repo view --json name,owner,url,updatedAt,pushedAt] *)
Record RepoData : Type := mkRepoData {
  repo_name : jsstring;
  repo_owner_login : jsstring;
  repo_url : jsstring;
  repo_updatedAt : option timestamp;
  repo_pushedAt : option timestamp        (* None: null or absent *)
}.

(** An element of [gh pr list --json number,title,author,createdAt,...]. *)
Record PullRequest : Type := mkPullRequest {
  pr_number : Z;
  pr_title : jsstring;
  pr_author_login : jsstring;
  pr_createdAt : timestamp;
  pr_updatedAt : timestamp;
  pr_url : jsstring;
  pr_reviewDecision : jsstring;
  pr_isDraft : bool
}.

(** An element of [repos/:owner/:repo/pulls/:n/comments]. *)
Record ReviewComment : Type := mkReviewComment {
  rc_id : ident;
  rc_user_login : jsstring;
  rc_body : option jsstring;
  rc_created_at : jsstring;
  rc_path : option jsstring;
  rc_line : option Z;
  rc_html_url : jsstring
}.

(** An element of the [comments] of [gh pr view --json comments]. *)
Record GeneralComment : Type := mkGeneralComment {
  gc_id : ident;
  gc_author_login : jsstring;
  gc_body : option jsstring;
  gc_createdAt : jsstring
}.

Record GeneralCommentsResult : Type := mkGeneralCommentsResult {
  comments : option (list GeneralComment)
}.

(** An element of [repos/:owner/:repo/pulls/:n/reviews]. *)
Record Review : Type := mkReview {
  rv_id : ident;
  rv_user_login : jsstring;
  rv_body : option jsstring;
  rv_state : jsstring;
  rv_submitted_at : jsstring;
  rv_html_url : jsstring
}.

Inductive CommentType : Type := review_comment | general_comment | review.

Inductive Url : Type :=
| Href (s : jsstring)
  (* `https://github.com/${owner}/${repo}/pull/${prNumber}#issuecomment-${id}` *)
| IssueCommentUrl (owner repo : jsstring) (prNumber : Z) (commentId : ident).

(** The objects pushed to [actionableComments]. *)
Record ActionableComment : Type := mkActionableComment {
  c_id : ident;
  c_type : CommentType;
  c_author : jsstring;
  c_body : option jsstring;
  c_createdAt : jsstring;
  c_path : option jsstring;
  c_line : option Z;
  c_state : option jsstring;
  c_url : Url;
  c_actionType : option ActionType;
  c_severity : option Severity
}.

Record SeverityCounts : Type := mkSeverityCounts {
  sc_high : nat;
  sc_medium : nat;
  sc_low : nat
}.

(** [{ ...pr, actionableComments, actionableCount, severityCounts }] *)
Record PullRequestSummary : Type := mkPullRequestSummary {
  pr : PullRequest;
  actionableComments : list ActionableComment;
  actionableCount : nat;
  severityCounts : SeverityCounts
}.

(** [repoData] of [fetchAllData]. *)
Record RepositorySummary : Type := mkRepositorySummary {
  owner : jsstring;
  name : jsstring;
  url : jsstring;
  lastPush : option timestamp;
  pullRequests : list PullRequestSummary
}.

(** [allData] of [fetchAllData]. *)
Record CacheSnapshot : Type := mkCacheSnapshot {
  lastUpdate : Z;
  repositories : list RepositorySummary
}.

(** The object written to [last-update.json]. *)
Record UpdateMetadata : Type := mkUpdateMetadata {
  um_lastUpdate : Z;
  repositoryCount : nat;
  totalPRs : nat;
  totalActionableComments : nat
}.

(** What [JSON.parse] returns. *)
Unset Elimination Schemes.
Inductive JSON : Type :=
| JNull
| JBool (b : bool)
| JNumber (literal : jsstring)
| JString (s : jsstring)
| JArray (items : list JSON)
| JObject (members : list (jsstring * JSON)).
Set Elimination Schemes.

(* ===================================================================== *)
(** ** The host: clock, subprocess, built-ins *)
(* ===================================================================== *)

(** Everything the fetcher obtains from outside.  An answer [None] of a
    [gh_*] field stands for a call of [execSync] that threw (non-zero exit,
    timeout, overflow of the buffer) or printed something [JSON.parse]
    rejects. *)
Record World : Type := mkWorld {
  (* successive readings of the system clock, by [Date.now()] or [new Date()] *)
  clock : nat -> Z;
  (* local calendar fields of a time value *)
  getDay : Z -> Z;
  getHours : Z -> Z;
  getMinutes : Z -> Z;
  toLowerCase : jsstring -> jsstring;
  JSON_parse : jsstring -> option JSON;                 (* None: SyntaxError *)
  stringify_snapshot : CacheSnapshot -> jsstring;       (* JSON.stringify(_, null, 2) *)
  stringify_metadata : UpdateMetadata -> jsstring;
  gh_repo_view : jsstring -> option RepoData;
  gh_pr_list : jsstring -> jsstring -> option (list PullRequest);
  gh_pulls_comments : jsstring -> jsstring -> Z -> option (list ReviewComment);
  gh_pr_view_comments : jsstring -> jsstring -> Z -> option GeneralCommentsResult;
  gh_pulls_reviews : jsstring -> jsstring -> Z -> option (list Review)
}.

(** [toLowerCase] maps the letters A-Z to a-z and leaves every other code
    unit below 128 alone; what it does above is left to the host. *)
Definition lowersAscii (f : jsstring -> jsstring) : Prop :=
  forall s, forallb isAscii s = true -> f s = map asciiLower s.

(* ===================================================================== *)
(** ** The two cache files *)
(* ===================================================================== *)

Inductive CacheFile : Type := prDataFile | lastUpdateFile.

(** What is found at the path of a cache file. *)
Inductive node : Type :=
| NoEntry
| RegularFile (content : jsstring) (readable writable : bool)
| Directory.

Inductive exn : Type :=
| GitHubCLIError            (* new Error(`GitHub CLI error: ...`) *)
| SystemError (f : CacheFile)   (* thrown by fs.readFileSync / fs.writeFileSync *)
| SyntaxError.              (* thrown by JSON.parse *)

Record state : Type := mkState {
  readings : nat;           (* clock readings made so far *)
  prData : node;
  lastUpdateInfo : node
}.

Definition file (st : state) (f : CacheFile) : node :=
  match f with
  | prDataFile => prData st
  | lastUpdateFile => lastUpdateInfo st
  end.

Definition setFile (st : state) (f : CacheFile) (n : node) : state :=
  match f with
  | prDataFile => mkState (readings st) n (lastUpdateInfo st)
  | lastUpdateFile => mkState (readings st) (prData st) n
  end.

(* ===================================================================== *)
(** ** The monad of the fetcher: state, and exceptions that keep the state *)
(* ===================================================================== *)

Inductive outcome (A : Type) : Type :=
| Returns (a : A)
| Throws (e : exn).
Arguments Returns {A} a.
Arguments Throws {A} e.

Definition M (A : Type) : Type := state -> outcome A * state.

Definition ret {A} (a : A) : M A := fun st => (Returns a, st).

Definition throw {A} (e : exn) : M A := fun st => (Throws e, st).

Definition bind {A B} (m : M A) (k : A -> M B) : M B :=
  fun st =>
    match m st with
    | (Returns a, st') => k a st'
    | (Throws e, st') => (Throws e, st')
    end.

(** [try { m } catch (error) { handler }] *)
Definition tryCatch {A} (m : M A) (handler : exn -> M A) : M A :=
  fun st =>
    match m st with
    | (Returns a, st') => (Returns a, st')
    | (Throws e, st') => handler e st'
    end.

Notation "x <- m ;; k" := (bind m (fun x => k))
  (at level 61, m at next level, right associativity).
Notation "m ;;; k" := (bind m (fun _ => k))
  (at level 61, right associativity).

(** [for (const x of xs) body], the body updating a local accumulator. *)
Fixpoint forOf {A B} (xs : list A) (body : A -> B -> M B) (acc : B) : M B :=
  match xs with
  | [] => ret acc
  | x :: rest => acc' <- body x acc ;; forOf rest body acc'
  end.

(** [Date.now()], and the time value of [new Date()]. *)
Definition Date_now (w : World) : M Z :=
  fun st => (Returns (clock w (readings st)),
             mkState (S (readings st)) (prData st) (lastUpdateInfo st)).

Definition existsSync (f : CacheFile) : M bool :=
  fun st => (Returns match file st f with NoEntry => false | _ => true end, st).

Definition readFileSync (f : CacheFile) : M jsstring :=
  fun st =>
    match file st f with
    | RegularFile content true _ => (Returns content, st)
    | _ => (Throws (SystemError f), st)
    end.

(** Whole-file overwrite; creates the file when nothing is there. *)
Definition writeFileSync (f : CacheFile) (data : jsstring) : M unit :=
  fun st =>
    match file st f with
    | NoEntry => (Returns tt, setFile st f (RegularFile data true true))
    | RegularFile _ r true => (Returns tt, setFile st f (RegularFile data r true))
    | _ => (Throws (SystemError f), st)
    end.

(* ===================================================================== *)
(** ** data-fetcher.js: class [GitHubDataFetcher] *)
(* ===================================================================== *)

Module GitHubDataFetcher.

(** [this.officeHours] *)
Definition startHour : Z := 9.
Definition endHour : Z := 18.
Definition workdays : list Z := [1; 2; 3; 4; 5].

(** [30 * 24 * 60 * 60 * 1000] *)
Definition thirtyDays : Z := 30 * 24 * 60 * 60 * 1000.

(** The local constant [reposToMonitor] of [getRepositoriesToMonitor]. *)
Definition reposToMonitor : list jsstring :=
  [ js "h1-aot/aot-base"; js "ppaul-h-aot/MRToolGH" ].

Section Methods.
Variable w : World.

(** [executeGhCommand]: whatever goes wrong is rethrown as
    [new Error(`GitHub CLI error: ...`)]. *)
Definition executeGhCommand {A} (answer : option A) : M A :=
  match answer with
  | Some a => ret a
  | None => throw GitHubCLIError
  end.

Definition includes (xs : list Z) (x : Z) : bool := existsb (Z.eqb x) xs.

Definition isOfficeHours : M bool :=
  now <- Date_now w ;;
  let hour := getHours w now in
  let day := getDay w now in
  ret (includes workdays day && (startHour <=? hour) && (hour <? endHour)).

Definition isCommentActionable (commentBody : option jsstring) : Classification :=
  DataFetcherClassifier.isCommentActionable (toLowerCase w) commentBody.

(** The body of the loop of [getRepositoriesToMonitor]; [repos] is the
    array the loop fills. *)
Definition monitorRepository (repoName : jsstring) (repos : list RepoData)
  : M (list RepoData) :=
  tryCatch
    (repoData <- executeGhCommand (gh_repo_view w repoName) ;;
     now <- Date_now w ;;
     let thirtyDaysAgo := Some (now - thirtyDays) in
     match repo_pushedAt repoData with
     | Some pushedAt =>
         if date_ge pushedAt thirtyDaysAgo
         then ret (repos ++ [repoData])
         else ret repos
     | None => ret repos
     end)
    (fun _ => ret repos).

Definition getRepositoriesToMonitorFrom (configured : list jsstring)
  : M (list RepoData) :=
  tryCatch (forOf configured monitorRepository []) (fun _ => ret []).

Definition getRepositoriesToMonitor : M (list RepoData) :=
  getRepositoriesToMonitorFrom reposToMonitor.

Definition reviewCommentEntry (comment : ReviewComment) (a : Classification)
  : ActionableComment :=
  mkActionableComment (rc_id comment) review_comment (rc_user_login comment)
    (rc_body comment) (rc_created_at comment) (rc_path comment)
    (rc_line comment) None (Href (rc_html_url comment)) (type a) (severity a).

Definition generalCommentEntry (owner repo : jsstring) (prNumber : Z)
    (comment : GeneralComment) (a : Classification) : ActionableComment :=
  mkActionableComment (gc_id comment) general_comment (gc_author_login comment)
    (gc_body comment) (gc_createdAt comment) None None None
    (IssueCommentUrl owner repo prNumber (gc_id comment)) (type a) (severity a).

Definition reviewEntry (r : Review) (a : Classification) : ActionableComment :=
  mkActionableComment (rv_id r) review (rv_user_login r) (rv_body r)
    (rv_submitted_at r) None None (Some (rv_state r)) (Href (rv_html_url r))
    (type a) (severity a).

(** The three [forEach] callbacks; [acc] is [actionableComments]. *)
Definition processReviewComment (acc : list ActionableComment)
    (comment : ReviewComment) : list ActionableComment :=
  let a := isCommentActionable (rc_body comment) in
  if actionable a then acc ++ [reviewCommentEntry comment a] else acc.

Definition processGeneralComment (owner repo : jsstring) (prNumber : Z)
    (acc : list ActionableComment) (comment : GeneralComment)
  : list ActionableComment :=
  let a := isCommentActionable (gc_body comment) in
  if actionable a
  then acc ++ [generalCommentEntry owner repo prNumber comment a] else acc.

Definition processReview (acc : list ActionableComment) (r : Review)
  : list ActionableComment :=
  if negb (falsy (rv_body r)) && negb (jsstring_eqb (rv_state r) (js "COMMENTED"))
  then
    let a := isCommentActionable (rv_body r) in
    if actionable a then acc ++ [reviewEntry r a] else acc
  else acc.

Definition getActionableComments (owner repo : jsstring) (prNumber : Z)
  : M (list ActionableComment) :=
  tryCatch
    (reviewComments <- executeGhCommand (gh_pulls_comments w owner repo prNumber) ;;
     generalCommentsResult <-
       executeGhCommand (gh_pr_view_comments w owner repo prNumber) ;;
     let generalComments :=
       match comments generalCommentsResult with
       | Some cs => cs
       | None => []
       end in
     reviews <- executeGhCommand (gh_pulls_reviews w owner repo prNumber) ;;
     let actionableComments := [] in
     let actionableComments :=
       fold_left processReviewComment reviewComments actionableComments in
     let actionableComments :=
       fold_left (processGeneralComment owner repo prNumber) generalComments
         actionableComments in
     let actionableComments :=
       fold_left processReview reviews actionableComments in
     ret actionableComments)
    (fun _ => ret []).

Definition hasSeverity (s : Severity) (c : ActionableComment) : bool :=
  match c_severity c, s with
  | Some high, high | Some medium, medium | Some low, low => true
  | _, _ => false
  end.

Definition summarize (p : PullRequest) (cs : list ActionableComment)
  : PullRequestSummary :=
  mkPullRequestSummary p cs (List.length cs)
    (mkSeverityCounts
       (List.length (filter (hasSeverity high) cs))
       (List.length (filter (hasSeverity medium) cs))
       (List.length (filter (hasSeverity low) cs))).

(** The body of the loop over [recentPrs]; [prs] is [repoData.pullRequests]. *)
Definition processPullRequest (repo : RepoData) (p : PullRequest)
    (prs : list PullRequestSummary) : M (list PullRequestSummary) :=
  cs <- getActionableComments (repo_owner_login repo) (repo_name repo)
          (pr_number p) ;;
  if (0 <? List.length cs)%nat then ret (prs ++ [summarize p cs]) else ret prs.

(** The body of the loop over [repos]; [repos_] is [allData.repositories]. *)
Definition processRepository (repo : RepoData) (repos_ : list RepositorySummary)
  : M (list RepositorySummary) :=
  tryCatch
    (now <- Date_now w ;;
     let thirtyDaysAgo := Some (now - thirtyDays) in
     listed <- executeGhCommand
                 (gh_pr_list w (repo_owner_login repo) (repo_name repo)) ;;
     let recentPrs :=
       filter (fun p => date_ge (pr_createdAt p) thirtyDaysAgo) listed in
     prs <- forOf recentPrs (processPullRequest repo) [] ;;
     if (0 <? List.length prs)%nat
     then ret (repos_ ++ [mkRepositorySummary (repo_owner_login repo)
                            (repo_name repo) (repo_url repo)
                            (repo_pushedAt repo) prs])
     else ret repos_)
    (fun _ => ret repos_).

Definition countPRs (rs : list RepositorySummary) : nat :=
  fold_left (fun sum repo => (sum + List.length (pullRequests repo))%nat) rs 0%nat.

Definition countActionable (rs : list RepositorySummary) : nat :=
  fold_left
    (fun sum repo =>
       (sum + fold_left (fun prSum p => (prSum + actionableCount p)%nat)
                (pullRequests repo) 0%nat)%nat)
    rs 0%nat.

Definition metadataOf (allData : CacheSnapshot) : UpdateMetadata :=
  mkUpdateMetadata (lastUpdate allData)
    (List.length (repositories allData))
    (countPRs (repositories allData))
    (countActionable (repositories allData)).

(** [fetchAllData] up to the point where [allData] is complete. *)
Definition collectFrom (configured : list jsstring) : M CacheSnapshot :=
  repos <- getRepositoriesToMonitorFrom configured ;;
  lastUpdate <- Date_now w ;;
  repos_ <- forOf repos processRepository [] ;;
  ret (mkCacheSnapshot lastUpdate repos_).

Definition fetchAllDataFrom (configured : list jsstring) : M CacheSnapshot :=
  allData <- collectFrom configured ;;
  writeFileSync prDataFile (stringify_snapshot w allData) ;;;
  writeFileSync lastUpdateFile (stringify_metadata w (metadataOf allData)) ;;;
  ret allData.

Definition fetchAllData : M CacheSnapshot := fetchAllDataFrom reposToMonitor.

(** [loadCachedData] and [getLastUpdateInfo] differ in the file only. *)
Definition loadJSON (f : CacheFile) : M JSON :=
  tryCatch
    (found <- existsSync f ;;
     if found
     then text <- readFileSync f ;;
          match JSON_parse w text with
          | Some v => ret v
          | None => throw SyntaxError
          end
     else ret JNull)
    (fun _ => ret JNull).

Definition loadCachedData : M JSON := loadJSON prDataFile.

Definition getLastUpdateInfo : M JSON := loadJSON lastUpdateFile.

(** [this.fetchAllData().catch(...)]; the result tells that a fetch ran. *)
Definition runFetch : M bool :=
  tryCatch (fetchAllData ;;; ret true) (fun _ => ret true).

(** [startScheduledFetcher], before [setInterval]. *)
Definition initialFetch : M bool :=
  inside <- isOfficeHours ;;
  if inside then runFetch else ret false.

(** The callback [startScheduledFetcher] hands to [setInterval], run
    every 60 seconds. *)
Definition scheduledCheck : M bool :=
  now <- Date_now w ;;
  inside <- isOfficeHours ;;
  if inside && (Z.rem (getHours w now) 3 =? 0) && (getMinutes w now =? 0)
  then runFetch
  else ret false.

End Methods.

End GitHubDataFetcher.

(* ===================================================================== *)
(** ** A concrete host, for runs on concrete inputs *)
(* ===================================================================== *)

Module Demo.

(** [toLowerCase] on ASCII input. *)
Definition asciiToLowerCase (s : jsstring) : jsstring := map asciiLower s.

Definition decimal (z : Z) : jsstring := js (NilZero.string_of_int (Z.to_int z)).

Definition printSnapshot (d : CacheSnapshot) : jsstring :=
  js "{lastUpdate:" ++ decimal (lastUpdate d) ++ js ",repositories:"
  ++ decimal (Z.of_nat (List.length (repositories d))) ++ js "}".

Definition printMetadata (m : UpdateMetadata) : jsstring :=
  js "{lastUpdate:" ++ decimal (um_lastUpdate m)
  ++ js ",repositoryCount:" ++ decimal (Z.of_nat (repositoryCount m))
  ++ js ",totalPRs:" ++ decimal (Z.of_nat (totalPRs m))
  ++ js ",totalActionableComments:"
  ++ decimal (Z.of_nat (totalActionableComments m)) ++ js "}".

(** Accepts the text [null] only. *)
Definition parseNull (text : jsstring) : option JSON :=
  if jsstring_eqb text (js "null") then Some JNull else None.

Definition day : Z := 24 * 60 * 60 * 1000.

(** 2023-11-14T22:13:20Z, a Tuesday. *)
Definition t0 : Z := 1700000000000.

(** Calendar fields in UTC. *)
Definition utcDay (t : Z) : Z := (t / day + 4) mod 7.
Definition utcHours (t : Z) : Z := (t / 3600000) mod 24.
Definition utcMinutes (t : Z) : Z := (t / 60000) mod 60.

Definition aotBase : RepoData :=
  mkRepoData (js "aot-base") (js "h1-aot") (js "https://github.com/h1-aot/aot-base")
    (Some (Some (t0 - day))) (Some (Some (t0 - day))).

(** Last pushed 31 days before [t0]. *)
Definition staleRepo : RepoData :=
  mkRepoData (js "MRToolGH") (js "ppaul-h-aot")
    (js "https://github.com/ppaul-h-aot/MRToolGH")
    (Some (Some (t0 - day))) (Some (Some (t0 - 31 * day))).

Definition pr7 : PullRequest :=
  mkPullRequest 7 (js "Add cache") (js "alice") (Some (t0 - 2 * day))
    (Some (t0 - day)) (js "https://github.com/h1-aot/aot-base/pull/7")
    (js "CHANGES_REQUESTED") false.

Definition pr8 : PullRequest :=
  mkPullRequest 8 (js "Tidy") (js "bob") (Some (t0 - 3 * day))
    (Some (t0 - day)) (js "https://github.com/h1-aot/aot-base/pull/8")
    [] false.

Definition lineComment (n : Z) (body : string) : ReviewComment :=
  mkReviewComment (IdNumber n) (js "carol") (Some (js body))
    (js "2023-11-13T10:00:00Z") (Some (js "src/cache.js")) (Some 12)
    (js "https://github.com/h1-aot/aot-base/pull/7#discussion_r1").

Definition issueComment (id body : string) : GeneralComment :=
  mkGeneralComment (IdString (js id)) (js "dave") (Some (js body))
    (js "2023-11-13T11:00:00Z").

Definition formalReview (n : Z) (st body : string) : Review :=
  mkReview (IdNumber n) (js "erin") (Some (js body)) (js st)
    (js "2023-11-13T12:00:00Z")
    (js "https://github.com/h1-aot/aot-base/pull/8#pullrequestreview-1").

Definition changesRequested : Review :=
  formalReview 31 "CHANGES_REQUESTED" "Could you add a test for this?".

Definition commented : Review :=
  formalReview 32 "COMMENTED" "please fix the bug".

(** PR 7 has three actionable comments and one that is not; PR 8 has two
    formal reviews; the second configured repository cannot be reached. *)
Definition world : World :=
  mkWorld
    (fun k => t0 + 1000 * Z.of_nat k)
    utcDay utcHours utcMinutes
    asciiToLowerCase parseNull printSnapshot printMetadata
    (fun repoName =>
       if jsstring_eqb repoName (js "h1-aot/aot-base") then Some aotBase else None)
    (fun _ _ => Some [pr7; pr8])
    (fun _ _ n =>
       if n =? 7
       then Some [lineComment 1 "this is broken"; lineComment 2 "lgtm";
                  lineComment 3 "What does this do?"]
       else Some [])
    (fun _ _ n =>
       if n =? 7
       then Some (mkGeneralCommentsResult
                    (Some [issueComment "IC_1" "maybe a nicer name, perhaps"]))
       else Some (mkGeneralCommentsResult None))
    (fun _ _ n => if n =? 8 then Some [changesRequested; commented] else Some []).

(** The same host, the second repository answering with a stale push. *)
Definition worldWithStaleRepo : World :=
  mkWorld (clock world) utcDay utcHours utcMinutes
    asciiToLowerCase parseNull printSnapshot printMetadata
    (fun repoName =>
       if jsstring_eqb repoName (js "h1-aot/aot-base") then Some aotBase
       else Some staleRepo)
    (gh_pr_list world) (gh_pulls_comments world) (gh_pr_view_comments world)
    (gh_pulls_reviews world).

(** The same host, [gh pr list] failing for every repository. *)
Definition worldPrListDown : World :=
  mkWorld (clock world) utcDay utcHours utcMinutes
    asciiToLowerCase parseNull printSnapshot printMetadata
    (gh_repo_view world) (fun _ _ => None)
    (gh_pulls_comments world) (gh_pr_view_comments world)
    (gh_pulls_reviews world).



(** A first run: neither cache file exists yet. *)
Definition fresh : state := mkState 0 NoEntry NoEntry.

(** A later run: a snapshot is there, the metadata file has become
    read-only. *)
Definition metadataReadOnly : state :=
  mkState 0
    (RegularFile (js "{lastUpdate:1,repositories:0}") true true)
    (RegularFile
       (js "{lastUpdate:1,repositoryCount:0,totalPRs:0,totalActionableComments:0}")
       true false).

(** The snapshot file holds text that is not JSON. *)
Definition corrupted : state :=
  mkState 0 (RegularFile (js "{lastUpdate:") true true) Directory.

End Demo.

(* ===================================================================== *)
(** ** Vocabulary of the statements *)
(* ===================================================================== *)

(** Some pattern of the group matches the (lower-cased) body. *)
Definition matchesGroup (patterns : list RegExp.regex) (body : jsstring) : Prop :=
  exists pattern, In pattern patterns /\ RegExp.test pattern body = true.

(** The state after one more reading of the clock. *)
Definition tick (st : state) : state :=
  mkState (S (readings st)) (prData st) (lastUpdateInfo st).

(** [writeFileSync] succeeds on such a node. *)
Definition writable (n : node) : bool :=
  match n with
  | NoEntry => true
  | RegularFile _ _ wr => wr
  | Directory => false
  end.


(** The condition under which [getActionableComments] keeps a review. *)
Definition reviewContributes (w : World) (r : Review) : bool :=
  negb (falsy (rv_body r))
  && negb (jsstring_eqb (rv_state r) (js "COMMENTED"))
  && actionable (GitHubDataFetcher.isCommentActionable w (rv_body r)).

Definition sumOf {A} (f : A -> nat) (xs : list A) : nat := list_sum (map f xs).



(** The node a successful [writeFileSync] of [data] leaves. *)
Definition overwritten (n : node) (data : jsstring) : node :=
  match n with
  | NoEntry => RegularFile data true true
  | RegularFile _ r _ => RegularFile data r true
  | Directory => Directory
  end.

(** A node that holds the text [data]. *)
Definition holds (n : node) (data : jsstring) : Prop :=
  exists r wr, n = RegularFile data r wr.

Definition thirtyOneDays : Z := 31 * 24 * 60 * 60 * 1000.

(** An entry of [actionableComments] that carries a severity. *)
Definition classified (c : ActionableComment) : Prop :=
  exists s, c_severity c = Some s.

Definition wellFormedPR (p : PullRequestSummary) : Prop :=
  actionableCount p = List.length (actionableComments p)
  /\ (sc_high (severityCounts p) + sc_medium (severityCounts p)
      + sc_low (severityCounts p))%nat = actionableCount p
  /\ actionableComments p <> [].

Definition wellFormedRepo (r : RepositorySummary) : Prop :=
  pullRequests r <> [] /\ Forall wellFormedPR (pullRequests r).

(** A computation that returns, whatever the state it starts in. *)
Definition neverThrows {A} (m : M A) : Prop :=
  forall st, exists a st', m st = (Returns a, st').

(** The state after [n] more readings of the clock. *)
Definition advance (n : nat) (st : state) : state :=
  mkState (readings st + n) (prData st) (lastUpdateInfo st).

(** What the methods of the fetcher compute, as functions of the answers of
    the host and of the index of the next clock reading.  The lemmas of
    section "The refresh, method by method" prove that the methods return
    these values. *)
Module Denotation.
Import GitHubDataFetcher.

Section Denotation.
Variable w : World.

Definition keptReviewComments (cs : list ReviewComment) : list ActionableComment :=
  flat_map
    (fun c =>
       let a := isCommentActionable w (rc_body c) in
       if actionable a then [reviewCommentEntry c a] else [])
    cs.

Definition keptGeneralComments (owner repo : jsstring) (prNumber : Z)
    (cs : list GeneralComment) : list ActionableComment :=
  flat_map
    (fun c =>
       let a := isCommentActionable w (gc_body c) in
       if actionable a then [generalCommentEntry owner repo prNumber c a] else [])
    cs.

Definition keptReviews (rs : list Review) : list ActionableComment :=
  map (fun r => reviewEntry r (isCommentActionable w (rv_body r)))
    (filter (reviewContributes w) rs).

Definition fetchedComments (owner repo : jsstring) (prNumber : Z)
  : list ActionableComment :=
  match gh_pulls_comments w owner repo prNumber,
        gh_pr_view_comments w owner repo prNumber,
        gh_pulls_reviews w owner repo prNumber with
  | Some reviewComments, Some generalCommentsResult, Some reviews =>
      keptReviewComments reviewComments
      ++ keptGeneralComments owner repo prNumber
           match comments generalCommentsResult with
           | Some cs => cs
           | None => []
           end
      ++ keptReviews reviews
  | _, _, _ => []
  end.

Definition summariesOf (repo : RepoData) (prs : list PullRequest)
  : list PullRequestSummary :=
  flat_map
    (fun p =>
       let cs := fetchedComments (repo_owner_login repo) (repo_name repo)
                   (pr_number p) in
       if (0 <? List.length cs)%nat then [summarize p cs] else [])
    prs.

(** The entries one repository adds to [allData.repositories] when the
    clock reads [now] at the start of its processing. *)
Definition repositoryResult (now : Z) (repo : RepoData) : list RepositorySummary :=
  match gh_pr_list w (repo_owner_login repo) (repo_name repo) with
  | None => []
  | Some listed =>
      let recentPrs :=
        filter (fun p => date_ge (pr_createdAt p) (Some (now - thirtyDays)))
          listed in
      let prs := summariesOf repo recentPrs in
      if (0 <? List.length prs)%nat
      then [mkRepositorySummary (repo_owner_login repo) (repo_name repo)
              (repo_url repo) (repo_pushedAt repo) prs]
      else []
  end.

Fixpoint repositoryResults (k : nat) (repos : list RepoData)
  : list RepositorySummary :=
  match repos with
  | [] => []
  | repo :: rest =>
      repositoryResult (clock w k) repo ++ repositoryResults (S k) rest
  end.

Definition pushedSince (since : Z) (repoData : RepoData) : bool :=
  match repo_pushedAt repoData with
  | Some pushedAt => date_ge pushedAt (Some since)
  | None => false
  end.

(** The repositories [getRepositoriesToMonitor] returns, [k] being the
    index of the next clock reading. *)
Fixpoint monitored (k : nat) (configured : list jsstring) : list RepoData :=
  match configured with
  | [] => []
  | repoName :: rest =>
      match gh_repo_view w repoName with
      | None => monitored k rest
      | Some repoData =>
          (if pushedSince (clock w k - thirtyDays) repoData
           then [repoData] else [])
          ++ monitored (S k) rest
      end
  end.

(** The number of configured repositories [gh repo view] answers for. *)
Fixpoint viewed (configured : list jsstring) : nat :=
  match configured with
  | [] => 0%nat
  | repoName :: rest =>
      match gh_repo_view w repoName with
      | None => viewed rest
      | Some _ => S (viewed rest)
      end
  end.

Definition snapshotOf (k : nat) (configured : list jsstring) : CacheSnapshot :=
  let k' := (k + viewed configured)%nat in
  mkCacheSnapshot (clock w k')
    (repositoryResults (S k') (monitored k configured)).

End Denotation.
End Denotation.

(* ===================================================================== *)
(** ** Vocabulary of the further statements *)
(* ===================================================================== *)

(** The five type/severity pairs [isCommentActionable] hands out. *)
Definition pairedVerdict (t : option ActionType) (s : option Severity) : Prop :=
  (t = Some fix_required /\ s = Some high)
  \/ (t = Some improvement_needed /\ s = Some medium)
  \/ (t = Some suggestion /\ s = Some low)
  \/ (t = Some question /\ s = Some medium)
  \/ (t = Some request /\ s = Some medium).

(** What an entry of [actionableComments] looks like, whatever it was
    built from. *)
Definition wellFormedEntry (c : ActionableComment) : Prop :=
  falsy (c_body c) = false
  /\ pairedVerdict (c_actionType c) (c_severity c)
  /\ match c_type c with
     | review => exists s, c_state c = Some s /\ s <> js "COMMENTED"
     | _ => c_state c = None
     end.

(** [JSON.parse(text)] inside the [try] of the two cache reads: a text that
    does not parse reads as [null]. *)
Definition parsedOrNull (w : World) (text : jsstring) : JSON :=
  match JSON_parse w text with
  | Some v => v
  | None => JNull
  end.

(** A node [readFileSync] can read once it has been written. *)
Definition readableOnceWritten (n : node) : Prop :=
  forall text wr, n <> RegularFile text false wr.

(* ===================================================================== *)
(** ** data-fetcher.js: the module run as a program *)
(* ===================================================================== *)

Module CommandLine.

Inductive ProcessStatus : Type :=
| Exited (code : Z)       (* process.exit(code) *)
| Running.                (* the timer of the scheduler keeps the process alive *)

(** [args.includes('--fetch-now')] *)
Definition includesFlag (args : list jsstring) (flag : jsstring) : bool :=
  existsb (jsstring_eqb flag) args.

(** The block under [if (require.main === module)]: [args] is
    [process.argv.slice(2)]. *)
Definition main (w : World) (args : list jsstring) : M ProcessStatus :=
  if includesFlag args (js "--fetch-now")
  then tryCatch (GitHubDataFetcher.fetchAllData w ;;; ret (Exited 0))
         (fun _ => ret (Exited 1))
  else (GitHubDataFetcher.initialFetch w ;;; ret Running).

End CommandLine.

(* ===================================================================== *)
(** ** Further concrete hosts *)
(* ===================================================================== *)

Module Scenarios.

(** [Demo.world] with the reviews of every pull request out of reach. *)
Definition reviewsDown : World :=
  mkWorld (clock Demo.world) Demo.utcDay Demo.utcHours Demo.utcMinutes
    Demo.asciiToLowerCase Demo.parseNull Demo.printSnapshot Demo.printMetadata
    (gh_repo_view Demo.world) (gh_pr_list Demo.world)
    (gh_pulls_comments Demo.world) (gh_pr_view_comments Demo.world)
    (fun _ _ _ => None).

(** [Demo.world] with no repository within reach of [gh]. *)
Definition githubDown : World :=
  mkWorld (clock Demo.world) Demo.utcDay Demo.utcHours Demo.utcMinutes
    Demo.asciiToLowerCase Demo.parseNull Demo.printSnapshot Demo.printMetadata
    (fun _ => None) (gh_pr_list Demo.world)
    (gh_pulls_comments Demo.world) (gh_pr_view_comments Demo.world)
    (gh_pulls_reviews Demo.world).

(** [Demo.world] with a [JSON.parse] that reads every text as the empty
    object. *)
Definition objectHost : World :=
  mkWorld (clock Demo.world) Demo.utcDay Demo.utcHours Demo.utcMinutes
    Demo.asciiToLowerCase (fun _ => Some (JObject [])) Demo.printSnapshot
    Demo.printMetadata
    (gh_repo_view Demo.world) (gh_pr_list Demo.world)
    (gh_pulls_comments Demo.world) (gh_pr_view_comments Demo.world)
    (gh_pulls_reviews Demo.world).

(** A repository whose [pushedAt] is [null]. *)
Definition undatedRepo : RepoData :=
  mkRepoData (js "aot-base") (js "h1-aot") (js "https://github.com/h1-aot/aot-base")
    None None.

(** A repository pushed 30 days and [late] milliseconds before [Demo.t0]. *)
Definition edgeRepo (late : Z) : RepoData :=
  mkRepoData (js "aot-base") (js "h1-aot") (js "https://github.com/h1-aot/aot-base")
    None (Some (Some (Demo.t0 - GitHubDataFetcher.thirtyDays - late))).

(** [Demo.world] with [gh repo view] answering [repoData] for every name. *)
Definition viewing (repoData : RepoData) : World :=
  mkWorld (clock Demo.world) Demo.utcDay Demo.utcHours Demo.utcMinutes
    Demo.asciiToLowerCase Demo.parseNull Demo.printSnapshot Demo.printMetadata
    (fun _ => Some repoData) (gh_pr_list Demo.world)
    (gh_pulls_comments Demo.world) (gh_pr_view_comments Demo.world)
    (gh_pulls_reviews Demo.world).

Definition noPushDate : World := viewing undatedRepo.
Definition onTheEdge : World := viewing (edgeRepo 0).
Definition pastTheEdge : World := viewing (edgeRepo 1).



(** A cache left by an earlier refresh, both files writable. *)
Definition cached : state :=
  mkState 0
    (RegularFile (js "{lastUpdate:1,repositories:1}") true true)
    (RegularFile
       (js "{lastUpdate:1,repositoryCount:1,totalPRs:2,totalActionableComments:4}")
       true true).

End Scenarios.

(* ===================================================================== *)
(** ** Strings and patterns of github-server.js *)
(* ===================================================================== *)

(** [s.split(sep)] for a separator of one code unit. *)
Fixpoint split (sep : N) (s : jsstring) : list jsstring :=
  match s with
  | [] => [[]]
  | x :: rest =>
      if N.eqb x sep then [] :: split sep rest
      else match split sep rest with
           | piece :: pieces => (x :: piece) :: pieces
           | [] => [[x]]
           end
  end.

(** ECMAScript's WhiteSpace and LineTerminator code units: what [\s]
    matches and what [trim] strips. *)
Definition isWhiteSpace (c : N) : bool :=
  (N.leb 9 c && N.leb c 13) || N.eqb c 32 || N.eqb c 160 || N.eqb c 5760
  || (N.leb 8192 c && N.leb c 8202) || N.eqb c 8232 || N.eqb c 8233
  || N.eqb c 8239 || N.eqb c 8287 || N.eqb c 12288 || N.eqb c 65279.

(** What [.] matches without the [s] flag: anything but a line terminator. *)
Definition isNotLineTerminator (c : N) : bool :=
  negb (N.eqb c 10 || N.eqb c 13 || N.eqb c 8232 || N.eqb c 8233).

Fixpoint trimStart (s : jsstring) : jsstring :=
  match s with
  | x :: rest => if isWhiteSpace x then trimStart rest else s
  | [] => []
  end.

Definition trimEnd (s : jsstring) : jsstring := rev (trimStart (rev s)).

Definition trim (s : jsstring) : jsstring := trimEnd (trimStart s).

(** The fragment of regular expressions [analyzePRDiff] uses: literal
    characters, a class or the dot under [+] or [*], and sequence. *)
Module LinePattern.

Inductive pattern : Type :=
| Str (cs : jsstring)            (* literal characters *)
| Plus (cls : N -> bool)         (* \s+  \w+ *)
| Star (cls : N -> bool)         (* \s*  .* *)
| Cat (p q : pattern).

(** The length of the longest prefix of [s] made of characters of [cls]. *)
Fixpoint run (cls : N -> bool) (s : jsstring) : nat :=
  match s with
  | x :: rest => if cls x then S (run cls rest) else 0%nat
  | [] => 0%nat
  end.

(** End positions of the matches that start at [i], the longest repetition
    first, as the greedy quantifiers try them. *)
Fixpoint ends (p : pattern) (input : jsstring) (i : nat) : list nat :=
  match p with
  | Str cs =>
      if RegExp.startsWith (skipn i input) cs then [(i + List.length cs)%nat] else []
  | Plus cls =>
      map (fun k => (i + k)%nat) (rev (seq 1 (run cls (skipn i input))))
  | Star cls =>
      map (fun k => (i + k)%nat) (rev (seq 0 (S (run cls (skipn i input)))))
  | Cat p1 p2 => flat_map (ends p2 input) (ends p1 input i)
  end.

Definition matchesAt (p : pattern) (input : jsstring) (i : nat) : bool :=
  match ends p input i with
  | [] => false
  | _ :: _ => true
  end.

(** [RegExp.prototype.test], no flags. *)
Definition test (p : pattern) (input : jsstring) : bool :=
  existsb (matchesAt p input) (seq 0 (S (List.length input))).

Fixpoint sequence (ps : list pattern) : pattern :=
  match ps with
  | [] => Str []
  | [p] => p
  | p :: rest => Cat p (sequence rest)
  end.

End LinePattern.

(* ===================================================================== *)
(** ** github-server.js: [analyzePRDiff] and the route of the cached data *)
(* ===================================================================== *)

Module GithubServer.
Import LinePattern.

(** An element of [refactoringPatterns]. *)
Record Refactoring : Type := mkRefactoring {
  rf_pattern : pattern;
  rf_severity : Severity;
  rf_type : ActionType;
  rf_message : jsstring
}.

(** The objects pushed to [issues]. *)
Record Issue : Type := mkIssue {
  i_line : nat;
  i_severity : Severity;
  i_type : ActionType;
  i_message : jsstring;
  i_codeSnippet : jsstring;
  i_githubUrl : jsstring;
  i_source : jsstring
}.

Definition newline : jsstring := [10%N].

(** /class\s+\w+Config/ *)
Definition configClass : Refactoring :=
  mkRefactoring
    (sequence [Str (js "class"); Plus isWhiteSpace; Plus RegExp.isWordCharacter;
               Str (js "Config")])
    medium suggestion
    (js "New config class detected. Consider validating all required fields in constructor.").

(** /def\s+_\w+.*\)\s*->\s*None:/ *)
Definition privateMethod : Refactoring :=
  mkRefactoring
    (sequence [Str (js "def"); Plus isWhiteSpace; Str (js "_");
               Plus RegExp.isWordCharacter; Star isNotLineTerminator; Str (js ")");
               Star isWhiteSpace; Str (js "->"); Star isWhiteSpace; Str (js "None:")])
    low suggestion
    (js "Private method with None return type. Consider if this should return a result for testing.").

(** /import.*\n.*import/ *)
Definition importGrouping : Refactoring :=
  mkRefactoring
    (sequence [Str (js "import"); Star isNotLineTerminator; Str newline;
               Star isNotLineTerminator; Str (js "import")])
    low suggestion
    (js "Consider grouping imports by source (stdlib, third-party, local) with blank lines between groups.").

(** /sys\.exit\(1\)/ *)
Definition sysExit : Refactoring :=
  mkRefactoring (Str (js "sys.exit(1)")) medium improvement_needed
    (js "Direct sys.exit() calls make testing difficult. Consider raising exceptions that can be caught.").

(** /os\.environ\.get\(/ *)
Definition environGet : Refactoring :=
  mkRefactoring (Str (js "os.environ.get(")) low suggestion
    (js "Direct environment variable access. Consider centralizing env var handling in config class.").

(** /logger\.error.*sys\.exit/ *)
Definition errorThenExit : Refactoring :=
  mkRefactoring
    (sequence [Str (js "logger.error"); Star isNotLineTerminator; Str (js "sys.exit")])
    medium improvement_needed
    (js "Error logging followed by exit. Consider raising custom exceptions for better error handling.").

(** /@dataclass\s*\nclass.*Config/ *)
Definition dataclassConfig : Refactoring :=
  mkRefactoring
    (sequence [Str (js "@dataclass"); Star isWhiteSpace; Str newline;
               Str (js "class"); Star isNotLineTerminator; Str (js "Config")])
    low suggestion
    (js "Dataclass config detected. Consider adding field validation using field() or __post_init__.").

(** /# TODO:/ *)
Definition todoComment : Refactoring :=
  mkRefactoring (Str (js "# TODO:")) low suggestion
    (js "TODO comment found. Consider creating GitHub issues for tracking these tasks.").

Definition refactoringPatterns : list Refactoring :=
  [ configClass; privateMethod; importGrouping; sysExit; environGet;
    errorThenExit; dataclassConfig; todoComment ].

(** [xs.forEach((x, index) => ...)], the callback updating a local
    accumulator; [index] is the index of the head of [xs]. *)
Fixpoint forEachFrom {A B} (index : nat) (xs : list A)
    (callback : B -> A -> nat -> B) (acc : B) : B :=
  match xs with
  | [] => acc
  | x :: rest => forEachFrom (S index) rest callback (callback acc x index)
  end.

Definition issueFor (repoName prNumber : jsstring) (index : nat)
    (cleanLine : jsstring) (r : Refactoring) : Issue :=
  mkIssue (index + 1) (rf_severity r) (rf_type r) (rf_message r) (trim cleanLine)
    (js "https://github.com/h1-aot/" ++ repoName ++ js "/pull/" ++ prNumber
     ++ js "/files")
    (js "claude-analysis").

(** [analyzePRDiff(diff, repoName, prNumber)]; the route hands it the
    [:repo] and [:number] parameters of the request, both strings. *)
Definition analyzePRDiff (diff repoName prNumber : jsstring) : list Issue :=
  let lines := split 10 diff in
  forEachFrom 0 lines
    (fun issues line index =>
       if negb (RegExp.startsWith line (js "+")) then issues
       else
         let cleanLine := skipn 1 line in
         fold_left
           (fun issues r =>
              if test (rf_pattern r) cleanLine
              then issues ++ [issueFor repoName prNumber index cleanLine r]
              else issues)
           refactoringPatterns issues)
    [].

(** What the route [/api/cached-data] answers. *)
Inductive CachedDataReply : Type :=
  (* res.json({ success: true, data, lastUpdate, fromCache: true }) *)
| CachedDataFound (data lastUpdate : JSON)
  (* res.json({ success: false, error: 'No cached data available. ...',
                lastUpdate: null, fromCache: false }) *)
| CachedDataMissing
  (* res.status(500).json({ success: false, error: error.message }) *)
| CachedDataError (e : exn).

(** [if (v)] for a value [JSON.parse] returned; [numberIsZero] tells the
    number literals whose value is 0. *)
Definition truthy (numberIsZero : jsstring -> bool) (v : JSON) : bool :=
  match v with
  | JNull => false
  | JBool b => b
  | JNumber literal => negb (numberIsZero literal)
  | JString s => match s with [] => false | _ :: _ => true end
  | JArray _ => true
  | JObject _ => true
  end.

(** The handler of [app.get('/api/cached-data', ...)]. *)
Definition cachedDataRoute (w : World) (numberIsZero : jsstring -> bool)
  : M CachedDataReply :=
  tryCatch
    (cachedData <- GitHubDataFetcher.loadCachedData w ;;
     lastUpdate <- GitHubDataFetcher.getLastUpdateInfo w ;;
     if truthy numberIsZero cachedData
     then ret (CachedDataFound cachedData lastUpdate)
     else ret CachedDataMissing)
    (fun e => ret (CachedDataError e)).

(** What the issues of one line are, and of the lines from [index] on. *)
Definition issuesOfLine (repoName prNumber : jsstring) (index : nat) (line : jsstring)
  : list Issue :=
  if RegExp.startsWith line (js "+")
  then flat_map
         (fun r =>
            if test (rf_pattern r) (skipn 1 line)
            then [issueFor repoName prNumber index (skipn 1 line) r] else [])
         refactoringPatterns
  else [].

Fixpoint issuesFrom (repoName prNumber : jsstring) (index : nat) (lines : list jsstring)
  : list Issue :=
  match lines with
  | [] => []
  | line :: rest =>
      issuesOfLine repoName prNumber index line
      ++ issuesFrom repoName prNumber (S index) rest
  end.

End GithubServer.

(** The line numbers of a list of issues never go down. *)
Fixpoint ascending (ns : list nat) : Prop :=
  match ns with
  | [] => True
  | n :: rest => (forall m, In m rest -> (n <= m)%nat) /\ ascending rest
  end.

(** The literal texts of a pattern: for [/\b(a|b|c)\b/], the alternatives. *)
Fixpoint literals (r : RegExp.regex) : list jsstring :=
  match r with
  | RegExp.Chars cs => [cs]
  | RegExp.Disj r1 r2 => literals r1 ++ literals r2
  | RegExp.Conc r1 r2 => literals r1 ++ literals r2
  | RegExp.Group r' => literals r'
  | RegExp.WordBoundary => []
  end.

(** The five pattern groups of the classifier, in the order tried. *)
Definition allPatterns : list RegExp.regex :=
  DataFetcherClassifier.highSeverityPatterns
  ++ DataFetcherClassifier.mediumSeverityPatterns
  ++ DataFetcherClassifier.lowSeverityPatterns
  ++ DataFetcherClassifier.questionPatterns
  ++ DataFetcherClassifier.requestPatterns.

(** Every word and phrase the classifier looks for (and the question mark). *)
Definition keywords : list jsstring := flat_map literals allPatterns.

(** A pattern of the tables: [/\b(a|b|...)\b/] with non-empty alternatives,
    or [/\?/]. *)
Definition tablePattern (r : RegExp.regex) : Prop :=
  r = RegExp.Chars [63%N]
  \/ exists alts, alts <> [] /\ Forall (fun a => js a <> []) alts
                  /\ r = RegExp.words alts.

(* ===================================================================== *)
(** * Properties *)
(* ===================================================================== *)

(** ** Strings and patterns *)

Lemma jsstring_eqb_eq (a b : jsstring) : jsstring_eqb a b = true <-> a = b.
Proof.
  revert b; induction a as [|x a IH]; intros [|y b]; simpl; split;
    try congruence; try reflexivity.
  - intros H. apply andb_true_iff in H as [Hx Hab].
    apply N.eqb_eq in Hx. apply IH in Hab. congruence.
  - intros H. injection H as -> ->.
    apply andb_true_iff; split; [apply N.eqb_refl | now apply IH].
Qed.

Lemma anyPatternMatches_iff patterns body :
  anyPatternMatches patterns body = true <-> matchesGroup patterns body.
Proof.
  unfold matchesGroup. induction patterns as [|p ps IH]; simpl.
  - split; [discriminate | intros (q & [] & _)].
  - destruct (RegExp.test p body) eqn:E.
    + split; [intros _; exists p; auto | reflexivity].
    + rewrite IH. split.
      * intros (q & Hq & Ht). exists q; auto.
      * intros (q & [<- | Hq] & Ht); [congruence | exists q; auto].
Qed.

Lemma anyPatternMatches_false patterns body :
  anyPatternMatches patterns body = false <-> ~ matchesGroup patterns body.
Proof.
  rewrite <- anyPatternMatches_iff.
  destruct (anyPatternMatches patterns body); split; congruence.
Qed.

(** ** The classifier *)

Section ClassifierFacts.
Import DataFetcherClassifier.

Variable lower : jsstring -> jsstring.
Hypothesis lower_ascii : lowersAscii lower.

Lemma classify_ascii (s : jsstring) :
  forallb isAscii s = true ->
  isCommentActionable lower (Some s)
  = isCommentActionable Demo.asciiToLowerCase (Some s).
Proof.
  intros H. unfold isCommentActionable, Demo.asciiToLowerCase.
  now rewrite (lower_ascii s H).
Qed.

Lemma lower_empty : lower [] = [].
Proof. now rewrite lower_ascii. Qed.

(** Unfolding of the cascade of loops, for a body that is a non-empty
    string. *)
Lemma classify_cascade (c : N) (text : jsstring) :
  let body := lower (c :: text) in
  isCommentActionable lower (Some (c :: text)) =
    if anyPatternMatches highSeverityPatterns body
    then verdict fix_required high
    else if anyPatternMatches mediumSeverityPatterns body
    then verdict improvement_needed medium
    else if anyPatternMatches lowSeverityPatterns body
    then verdict suggestion low
    else if anyPatternMatches questionPatterns body
    then verdict question medium
    else if anyPatternMatches requestPatterns body
    then verdict request medium
    else notActionable.
Proof. reflexivity. Qed.

Lemma high_wins (body : jsstring) :
  matchesGroup highSeverityPatterns (lower body) ->
  isCommentActionable lower (Some body) = verdict fix_required high.
Proof.
  intros H. apply anyPatternMatches_iff in H.
  destruct body as [|c text].
  - rewrite lower_empty in H. vm_compute in H. discriminate.
  - rewrite classify_cascade. cbv zeta. now rewrite H.
Qed.

End ClassifierFacts.

(** C1.  The five pattern groups are tried on the lower-cased body in the
    order high, medium, low, question, request, and the first group with a
    matching pattern decides: a body matching a high-severity pattern is
    classified [fix_required]/[high] whatever else it matches (a question
    mark included); "Could you add a test for this?" is
    [improvement_needed]/[medium] and "What does this do?" is
    [question]/[medium]. *)
Theorem classify_priority_order (lower : jsstring -> jsstring) :
  lowersAscii lower ->
  let classify := DataFetcherClassifier.isCommentActionable lower in
  let matches group body := matchesGroup group (lower body) in
  (forall body,
      matches DataFetcherClassifier.highSeverityPatterns body ->
      classify (Some body) = verdict fix_required high)
  /\ (forall body, body <> [] ->
      ~ matches DataFetcherClassifier.highSeverityPatterns body ->
      (matches DataFetcherClassifier.mediumSeverityPatterns body ->
       classify (Some body) = verdict improvement_needed medium)
      /\ (~ matches DataFetcherClassifier.mediumSeverityPatterns body ->
          (matches DataFetcherClassifier.lowSeverityPatterns body ->
           classify (Some body) = verdict suggestion low)
          /\ (~ matches DataFetcherClassifier.lowSeverityPatterns body ->
              (matches DataFetcherClassifier.questionPatterns body ->
               classify (Some body) = verdict question medium)
              /\ (~ matches DataFetcherClassifier.questionPatterns body ->
                  (matches DataFetcherClassifier.requestPatterns body ->
                   classify (Some body) = verdict request medium)
                  /\ (~ matches DataFetcherClassifier.requestPatterns body ->
                      classify (Some body) = notActionable)))))
  /\ classify (Some (js "Is this broken?")) = verdict fix_required high
  /\ classify (Some (js "Could you add a test for this?"))
     = verdict improvement_needed medium
  /\ classify (Some (js "What does this do?")) = verdict question medium.
Proof.
  intros Hlower classify matches. unfold classify, matches.
  split; [| split; [| repeat split]].
  - intros body. now apply high_wins.
  - intros [|c text] Hne; [congruence |]. intros Hhigh.
    rewrite classify_cascade. cbv zeta.
    apply anyPatternMatches_false in Hhigh. rewrite Hhigh.
    split; [intros H; apply anyPatternMatches_iff in H; now rewrite H |].
    intros Hmed. apply anyPatternMatches_false in Hmed. rewrite Hmed.
    split; [intros H; apply anyPatternMatches_iff in H; now rewrite H |].
    intros Hlow. apply anyPatternMatches_false in Hlow. rewrite Hlow.
    split; [intros H; apply anyPatternMatches_iff in H; now rewrite H |].
    intros Hq. apply anyPatternMatches_false in Hq. rewrite Hq.
    split; [intros H; apply anyPatternMatches_iff in H; now rewrite H |].
    intros Hr. apply anyPatternMatches_false in Hr. now rewrite Hr.
  - rewrite classify_ascii by (assumption || (vm_compute; reflexivity)).
    vm_compute; reflexivity.
  - rewrite classify_ascii by (assumption || (vm_compute; reflexivity)).
    vm_compute; reflexivity.
  - rewrite classify_ascii by (assumption || (vm_compute; reflexivity)).
    vm_compute; reflexivity.
Qed.

Lemma asciiToLowerCase_lowersAscii : lowersAscii Demo.asciiToLowerCase.
Proof. intros s _. reflexivity. Qed.

Lemma classify_priority_order_witness :
  lowersAscii Demo.asciiToLowerCase
  /\ matchesGroup DataFetcherClassifier.highSeverityPatterns
       (Demo.asciiToLowerCase (js "Please FIX this?"))
  /\ DataFetcherClassifier.isCommentActionable Demo.asciiToLowerCase
       (Some (js "Please FIX this?")) = verdict fix_required high.
Proof.
  assert (Hm : matchesGroup DataFetcherClassifier.highSeverityPatterns
                 (Demo.asciiToLowerCase (js "Please FIX this?"))).
  { exists (RegExp.words
              ["fix"; "error"; "bug"; "broken"; "issue"; "problem"; "wrong"]%string).
    split; [left; reflexivity | vm_compute; reflexivity]. }
  split; [exact asciiToLowerCase_lowersAscii | split; [exact Hm |]].
  destruct (classify_priority_order Demo.asciiToLowerCase
              asciiToLowerCase_lowersAscii) as [Hhigh _].
  exact (Hhigh (js "Please FIX this?") Hm).
Defined.

(** C8.  [isCommentActionable] applied to [null] and to the empty string both
    return [{ actionable: false }], an object with no type and no severity. *)
Theorem classify_null_and_empty (w : World) :
  GitHubDataFetcher.isCommentActionable w None = notActionable
  /\ GitHubDataFetcher.isCommentActionable w (Some []) = notActionable
  /\ actionable notActionable = false
  /\ type notActionable = None
  /\ severity notActionable = None.
Proof. repeat split. Qed.

(** C10.  The classifier of data-fetcher.js and the one of github-server.js
    return the same object for every comment body, [null] and the empty
    string included. *)
Theorem classifiers_agree (lower : jsstring -> jsstring) (commentBody : option jsstring) :
  DataFetcherClassifier.isCommentActionable lower commentBody
  = GithubServerClassifier.isCommentActionable lower commentBody.
Proof.
  assert (Hh : DataFetcherClassifier.highSeverityPatterns
               = GithubServerClassifier.highSeverityPatterns) by reflexivity.
  assert (Hm : DataFetcherClassifier.mediumSeverityPatterns
               = GithubServerClassifier.mediumSeverityPatterns) by reflexivity.
  assert (Hl : DataFetcherClassifier.lowSeverityPatterns
               = GithubServerClassifier.lowSeverityPatterns) by reflexivity.
  assert (Hq : DataFetcherClassifier.questionPatterns
               = GithubServerClassifier.questionPatterns) by reflexivity.
  assert (Hr : DataFetcherClassifier.requestPatterns
               = GithubServerClassifier.requestPatterns) by reflexivity.
  unfold GithubServerClassifier.isCommentActionable.
  rewrite <- Hh, <- Hm, <- Hl, <- Hq, <- Hr.
  reflexivity.
Qed.

(** ** The monad *)

Lemma tryCatch_neverThrows {A} (m : M A) (handler : exn -> M A) :
  (forall e, neverThrows (handler e)) -> neverThrows (tryCatch m handler).
Proof.
  intros Hh st. unfold tryCatch.
  destruct (m st) as [[a|e] st'] eqn:E.
  - now exists a, st'.
  - apply Hh.
Qed.

Lemma ret_neverThrows {A} (a : A) : neverThrows (ret a).
Proof. intros st. now exists a, st. Qed.

Lemma bind_neverThrows {A B} (m : M A) (k : A -> M B) :
  neverThrows m -> (forall a, neverThrows (k a)) -> neverThrows (bind m k).
Proof.
  intros Hm Hk st. unfold bind.
  destruct (Hm st) as (a & st' & ->). apply Hk.
Qed.

Lemma forOf_neverThrows {A B} (xs : list A) (body : A -> B -> M B) :
  (forall x acc, neverThrows (body x acc)) ->
  forall acc, neverThrows (forOf xs body acc).
Proof.
  intros Hbody. induction xs as [|x xs IH]; intros acc; simpl.
  - apply ret_neverThrows.
  - apply bind_neverThrows; [apply Hbody | apply IH].
Qed.

Lemma forOf_app {A B} (xs ys : list A) (body : A -> B -> M B) (acc : B) (st : state) :
  forOf (xs ++ ys) body acc st
  = bind (forOf xs body acc) (forOf ys body) st.
Proof.
  revert acc st. induction xs as [|x xs IH]; intros acc st; simpl.
  - reflexivity.
  - unfold bind in *.
    destruct (body x acc st) as [[acc'|e] st']; [apply IH | reflexivity].
Qed.

Lemma advance_0 st : advance 0 st = st.
Proof. destruct st; unfold advance; simpl. now rewrite Nat.add_0_r. Qed.

Lemma advance_tick n st : advance n (tick st) = advance (S n) st.
Proof. unfold advance, tick; simpl. f_equal. lia. Qed.

(** ** The refresh, method by method *)

Section MethodFacts.
Import GitHubDataFetcher Denotation.
Variable w : World.

Lemma fold_processReviewComment cs acc :
  fold_left (processReviewComment w) cs acc = acc ++ keptReviewComments w cs.
Proof.
  revert acc. induction cs as [|c cs IH]; intros acc; simpl.
  - now rewrite app_nil_r.
  - rewrite IH. unfold processReviewComment.
    destruct (actionable (isCommentActionable w (rc_body c))); simpl.
    + now rewrite <- app_assoc.
    + reflexivity.
Qed.

Lemma fold_processGeneralComment owner repo n cs acc :
  fold_left (processGeneralComment w owner repo n) cs acc
  = acc ++ keptGeneralComments w owner repo n cs.
Proof.
  revert acc. induction cs as [|c cs IH]; intros acc; simpl.
  - now rewrite app_nil_r.
  - rewrite IH. unfold processGeneralComment.
    destruct (actionable (isCommentActionable w (gc_body c))); simpl.
    + now rewrite <- app_assoc.
    + reflexivity.
Qed.

Lemma fold_processReview rs acc :
  fold_left (processReview w) rs acc = acc ++ keptReviews w rs.
Proof.
  revert acc. unfold keptReviews.
  induction rs as [|r rs IH]; intros acc; simpl.
  - now rewrite app_nil_r.
  - rewrite IH. unfold processReview, reviewContributes.
    destruct (negb (falsy (rv_body r))
              && negb (jsstring_eqb (rv_state r) (js "COMMENTED"))); simpl.
    + destruct (actionable (isCommentActionable w (rv_body r))); simpl.
      * now rewrite <- app_assoc.
      * reflexivity.
    + reflexivity.
Qed.

(** [getActionableComments] returns, and leaves the state alone. *)
Lemma getActionableComments_denotes owner repo n st :
  getActionableComments w owner repo n st
  = (Returns (fetchedComments w owner repo n), st).
Proof.
  unfold getActionableComments, fetchedComments, tryCatch, bind, executeGhCommand.
  destruct (gh_pulls_comments w owner repo n) as [rcs|]; simpl; [|reflexivity].
  destruct (gh_pr_view_comments w owner repo n) as [gcr|]; simpl; [|reflexivity].
  destruct (gh_pulls_reviews w owner repo n) as [rvs|]; simpl; [|reflexivity].
  unfold ret. rewrite fold_processReview, fold_processGeneralComment,
    fold_processReviewComment. simpl. now rewrite app_assoc.
Qed.

Lemma processPullRequests_denotes repo prs acc st :
  forOf prs (processPullRequest w repo) acc st
  = (Returns (acc ++ summariesOf w repo prs), st).
Proof.
  revert acc. induction prs as [|p prs IH]; intros acc; simpl.
  - unfold ret. now rewrite app_nil_r.
  - unfold bind, processPullRequest at 1. unfold bind.
    rewrite getActionableComments_denotes.
    destruct (0 <? List.length _)%nat; unfold ret; rewrite IH.
    + now rewrite <- app_assoc.
    + reflexivity.
Qed.

(** One repository: one reading of the clock, no exception. *)
Lemma processRepository_denotes repo acc st :
  processRepository w repo acc st
  = (Returns (acc ++ repositoryResult w (clock w (readings st)) repo), tick st).
Proof.
  unfold processRepository, repositoryResult, tryCatch, bind, executeGhCommand.
  simpl. fold (tick st).
  destruct (gh_pr_list w (repo_owner_login repo) (repo_name repo)) as [listed|];
    simpl.
  - rewrite processPullRequests_denotes. simpl.
    destruct (0 <? List.length _)%nat; unfold ret; simpl;
      rewrite ?app_nil_r; reflexivity.
  - unfold ret. now rewrite app_nil_r.
Qed.

Lemma processRepositories_denotes repos acc st :
  forOf repos (processRepository w) acc st
  = (Returns (acc ++ repositoryResults w (readings st) repos),
     advance (List.length repos) st).
Proof.
  revert acc st. induction repos as [|repo repos IH]; intros acc st; simpl.
  - unfold ret. now rewrite app_nil_r, advance_0.
  - unfold bind. rewrite processRepository_denotes, IH.
    rewrite advance_tick. simpl. now rewrite <- app_assoc.
Qed.

Lemma monitorRepository_denotes repoName acc st :
  monitorRepository w repoName acc st
  = match gh_repo_view w repoName with
    | None => (Returns acc, st)
    | Some repoData =>
        (Returns (acc ++ if pushedSince (clock w (readings st) - thirtyDays) repoData
                         then [repoData] else []),
         tick st)
    end.
Proof.
  unfold monitorRepository, tryCatch, bind, executeGhCommand, pushedSince.
  destruct (gh_repo_view w repoName) as [repoData|]; simpl; [|reflexivity].
  fold (tick st).
  destruct (repo_pushedAt repoData) as [pushedAt|]; simpl.
  - destruct (date_ge pushedAt _); unfold ret; [reflexivity | now rewrite app_nil_r].
  - unfold ret. now rewrite app_nil_r.
Qed.

Lemma monitorRepositories_denotes configured acc st :
  forOf configured (monitorRepository w) acc st
  = (Returns (acc ++ monitored w (readings st) configured),
     advance (viewed w configured) st).
Proof.
  revert acc st. induction configured as [|repoName rest IH]; intros acc st; simpl.
  - unfold ret. now rewrite app_nil_r, advance_0.
  - unfold bind. rewrite monitorRepository_denotes.
    destruct (gh_repo_view w repoName) as [repoData|].
    + rewrite IH, advance_tick. simpl. now rewrite <- app_assoc.
    + apply IH.
Qed.

Lemma getRepositoriesToMonitorFrom_denotes configured st :
  getRepositoriesToMonitorFrom w configured st
  = (Returns (monitored w (readings st) configured),
     advance (viewed w configured) st).
Proof.
  unfold getRepositoriesToMonitorFrom, tryCatch.
  now rewrite monitorRepositories_denotes.
Qed.

(** The collection phase of [fetchAllData] returns, whatever the host
    answers. *)
Lemma collectFrom_denotes configured st :
  collectFrom w configured st
  = (Returns (snapshotOf w (readings st) configured),
     advance (viewed w configured + 1 + List.length (monitored w (readings st) configured))
       st).
Proof.
  unfold collectFrom, bind. rewrite getRepositoriesToMonitorFrom_denotes.
  simpl. rewrite processRepositories_denotes. simpl.
  unfold snapshotOf, ret. f_equal.
  unfold advance; simpl. f_equal. lia.
Qed.

End MethodFacts.

(** ** Formal reviews *)

Section ReviewFacts.
Import GitHubDataFetcher Denotation.
Variable w : World.

Lemma reviewContributes_iff r :
  reviewContributes w r = true
  <-> falsy (rv_body r) = false
      /\ rv_state r <> js "COMMENTED"
      /\ actionable (isCommentActionable w (rv_body r)) = true.
Proof.
  unfold reviewContributes.
  rewrite !andb_true_iff, !negb_true_iff.
  assert (E : jsstring_eqb (rv_state r) (js "COMMENTED") = false
              <-> rv_state r <> js "COMMENTED").
  { rewrite <- jsstring_eqb_eq.
    destruct (jsstring_eqb (rv_state r) (js "COMMENTED")); split; congruence. }
  rewrite E. tauto.
Qed.







End ReviewFacts.



(** ** Writing the cache *)

Lemma writeFileSync_cases (f : CacheFile) (data : jsstring) (st : state) :
  writeFileSync f data st
  = if writable (file st f)
    then (Returns tt, setFile st f (overwritten (file st f) data))
    else (Throws (SystemError f), st).
Proof.
  unfold writeFileSync.
  destruct (file st f) as [|content r [|]|]; reflexivity.
Qed.

Lemma overwritten_holds (n : node) (data : jsstring) :
  writable n = true -> holds (overwritten n data) data.
Proof.
  destruct n as [|content r wr|]; simpl; intros H; try discriminate;
    unfold holds; eauto.
Qed.

Section FetchFacts.
Import GitHubDataFetcher Denotation.
Variable w : World.

(** The whole of [fetchAllData]: the snapshot is collected, then written,
    then the metadata is written; either write may throw. *)
Lemma fetchAllDataFrom_cases configured st :
  let allData := snapshotOf w (readings st) configured in
  let st1 :=
    advance (viewed w configured + 1
             + List.length (monitored w (readings st) configured)) st in
  let st2 :=
    setFile st1 prDataFile
      (overwritten (prData st) (stringify_snapshot w allData)) in
  fetchAllDataFrom w configured st
  = if writable (prData st)
    then if writable (lastUpdateInfo st)
         then (Returns allData,
               setFile st2 lastUpdateFile
                 (overwritten (lastUpdateInfo st)
                    (stringify_metadata w (metadataOf allData))))
         else (Throws (SystemError lastUpdateFile), st2)
    else (Throws (SystemError prDataFile), st1).
Proof.
  intros allData st1 st2. unfold fetchAllDataFrom, bind.
  rewrite collectFrom_denotes. fold allData st1.
  rewrite writeFileSync_cases. simpl.
  destruct (writable (prData st)); [| reflexivity].
  rewrite writeFileSync_cases. simpl.
  destruct (writable (lastUpdateInfo st)); reflexivity.
Qed.

Lemma fetchAllDataFrom_returns configured st allData st' :
  fetchAllDataFrom w configured st = (Returns allData, st') ->
  allData = snapshotOf w (readings st) configured
  /\ writable (prData st) = true
  /\ writable (lastUpdateInfo st) = true
  /\ prData st' = overwritten (prData st) (stringify_snapshot w allData)
  /\ lastUpdateInfo st'
     = overwritten (lastUpdateInfo st) (stringify_metadata w (metadataOf allData)).
Proof.
  rewrite fetchAllDataFrom_cases. cbv zeta.
  destruct (writable (prData st)); [| discriminate].
  destruct (writable (lastUpdateInfo st)); [| discriminate].
  intros H. injection H as <- <-. repeat split.
Qed.

Lemma fold_count_sum {A} (f : A -> nat) (xs : list A) (n : nat) :
  fold_left (fun sum x => (sum + f x)%nat) xs n = (n + sumOf f xs)%nat.
Proof.
  unfold sumOf. revert n.
  induction xs as [|x xs IH]; intros n; simpl; [lia |].
  rewrite IH. lia.
Qed.

Lemma countPRs_sum rs :
  countPRs rs = sumOf (fun r => List.length (pullRequests r)) rs.
Proof. unfold countPRs. now rewrite fold_count_sum. Qed.

Lemma countActionable_sum rs :
  countActionable rs
  = sumOf (fun r => sumOf actionableCount (pullRequests r)) rs.
Proof.
  unfold countActionable.
  rewrite (fold_count_sum
             (fun r => fold_left (fun prSum p => (prSum + actionableCount p)%nat)
                         (pullRequests r) 0%nat)).
  simpl. unfold sumOf at 1 2. f_equal. apply map_ext.
  intros r. now rewrite fold_count_sum.
Qed.

End FetchFacts.

(** ** Well-formed summaries *)

Section SummaryFacts.
Import GitHubDataFetcher Denotation.
Variable w : World.

Lemma actionable_has_severity lower body :
  actionable (DataFetcherClassifier.isCommentActionable lower body) = true ->
  exists s, severity (DataFetcherClassifier.isCommentActionable lower body) = Some s.
Proof.
  unfold DataFetcherClassifier.isCommentActionable.
  destruct body as [[|c text]|]; simpl; try discriminate.
  repeat match goal with
         | |- context [if ?b then _ else _] => destruct b; simpl
         end; intros H; try discriminate; eauto.
Qed.

Lemma keptReviewComments_classified cs :
  Forall classified (keptReviewComments w cs).
Proof.
  induction cs as [|c cs IH]; simpl; [constructor |].
  apply Forall_app; split; [| exact IH].
  destruct (actionable (isCommentActionable w (rc_body c))) eqn:E;
    constructor; [| constructor].
  apply (actionable_has_severity _ _ E).
Qed.

Lemma keptGeneralComments_classified owner repo n cs :
  Forall classified (keptGeneralComments w owner repo n cs).
Proof.
  induction cs as [|c cs IH]; simpl; [constructor |].
  apply Forall_app; split; [| exact IH].
  destruct (actionable (isCommentActionable w (gc_body c))) eqn:E;
    constructor; [| constructor].
  apply (actionable_has_severity _ _ E).
Qed.

Lemma keptReviews_classified rs : Forall classified (keptReviews w rs).
Proof.
  unfold keptReviews. apply Forall_forall. intros c Hc.
  apply in_map_iff in Hc as (r & <- & Hr).
  apply filter_In in Hr as [_ Hr].
  apply reviewContributes_iff in Hr as (_ & _ & Hr).
  apply (actionable_has_severity _ _ Hr).
Qed.

Lemma fetchedComments_classified owner repo n :
  Forall classified (fetchedComments w owner repo n).
Proof.
  unfold fetchedComments.
  destruct (gh_pulls_comments w owner repo n); [| constructor].
  destruct (gh_pr_view_comments w owner repo n); [| constructor].
  destruct (gh_pulls_reviews w owner repo n); [| constructor].
  repeat (apply Forall_app; split);
    auto using keptReviewComments_classified, keptGeneralComments_classified,
      keptReviews_classified.
Qed.

(** The three severity filters partition a list of classified comments. *)
Lemma severity_partition cs :
  Forall classified cs ->
  (List.length (filter (hasSeverity high) cs)
   + List.length (filter (hasSeverity medium) cs)
   + List.length (filter (hasSeverity low) cs))%nat = List.length cs.
Proof.
  induction 1 as [|c cs [s Hs] _ IH]; simpl; [reflexivity |].
  destruct (hasSeverity high c) eqn:Eh, (hasSeverity medium c) eqn:Em,
    (hasSeverity low c) eqn:El;
    unfold hasSeverity in Eh, Em, El; rewrite Hs in Eh, Em, El;
    destruct s; try discriminate; simpl; lia.
Qed.

Lemma summariesOf_wellFormed repo prs :
  Forall wellFormedPR (summariesOf w repo prs).
Proof.
  unfold summariesOf. apply Forall_forall. intros p Hp.
  apply in_flat_map in Hp as (q & _ & Hp). cbv zeta in Hp.
  destruct (0 <? List.length _)%nat eqn:E; [| contradiction].
  destruct Hp as [<- | []]. unfold wellFormedPR, summarize; simpl.
  split; [reflexivity | split].
  - apply severity_partition, fetchedComments_classified.
  - intros Hnil. rewrite Hnil in E. discriminate.
Qed.

Lemma repositoryResult_inv now repo r :
  In r (repositoryResult w now repo) ->
  wellFormedRepo r /\ lastPush r = repo_pushedAt repo.
Proof.
  unfold repositoryResult.
  destruct (gh_pr_list w _ _) as [listed|]; [| contradiction]. cbv zeta.
  destruct (0 <? List.length _)%nat eqn:E; [| contradiction].
  intros [<- | []]. unfold wellFormedRepo; simpl. repeat split.
  - intros Hnil. rewrite Hnil in E. discriminate.
  - apply summariesOf_wellFormed.
Qed.

Lemma repositoryResults_inv k repos r :
  In r (repositoryResults w k repos) ->
  wellFormedRepo r /\ exists repo, In repo repos /\ lastPush r = repo_pushedAt repo.
Proof.
  revert k. induction repos as [|repo repos IH]; intros k; simpl; [contradiction |].
  rewrite in_app_iff. intros [H | H].
  - apply repositoryResult_inv in H as [Hwf Hpush]. eauto.
  - apply IH in H as (Hwf & repo' & Hin & Hpush). eauto.
Qed.

End SummaryFacts.

Lemma snapshot_summaries_wellFormed (w : World) (configured : list jsstring)
    (st st' : state) (allData : CacheSnapshot) :
  GitHubDataFetcher.fetchAllDataFrom w configured st = (Returns allData, st') ->
  forall repo, In repo (repositories allData) -> wellFormedRepo repo.
Proof.
  intros Hrun repo Hrepo.
  apply fetchAllDataFrom_returns in Hrun as (-> & _).
  now apply repositoryResults_inv in Hrepo as [Hwf _].
Qed.

(** C5.  In the snapshot [fetchAllData] returns, every pull-request summary
    has [actionableCount] equal to the length of [actionableComments], its
    three severity counts add up to [actionableCount], and it has at least
    one actionable comment (a pull request with none is not listed); every
    repository of the snapshot lists at least one pull request. *)
Theorem snapshot_summaries_consistent (w : World) (configured : list jsstring)
    (st st' : state) (allData : CacheSnapshot) :
  GitHubDataFetcher.fetchAllDataFrom w configured st = (Returns allData, st') ->
  forall repo, In repo (repositories allData) ->
    pullRequests repo <> []
    /\ forall p, In p (pullRequests repo) ->
         actionableCount p = List.length (actionableComments p)
         /\ (sc_high (severityCounts p) + sc_medium (severityCounts p)
             + sc_low (severityCounts p))%nat = actionableCount p
         /\ actionableComments p <> [].
Proof.
  intros Hrun repo Hrepo.
  destruct (snapshot_summaries_wellFormed w configured st st' allData Hrun repo Hrepo)
    as [Hne Hprs].
  split; [exact Hne |].
  intros p Hp. exact (proj1 (Forall_forall _ _) Hprs p Hp).
Qed.

Lemma snapshot_summaries_consistent_witness :
  exists allData st' repo p,
    GitHubDataFetcher.fetchAllDataFrom Demo.world GitHubDataFetcher.reposToMonitor
      Demo.fresh = (Returns allData, st')
    /\ In repo (repositories allData)
    /\ In p (pullRequests repo)
    /\ pr p = Demo.pr7
    /\ actionableCount p = 3%nat
    /\ actionableCount p = List.length (actionableComments p)
    /\ (sc_high (severityCounts p) + sc_medium (severityCounts p)
        + sc_low (severityCounts p))%nat = actionableCount p.
Proof.
  pose (run := GitHubDataFetcher.fetchAllDataFrom Demo.world
                 GitHubDataFetcher.reposToMonitor Demo.fresh).
  pose (allData := Denotation.snapshotOf Demo.world 0 GitHubDataFetcher.reposToMonitor).
  assert (Hrun : run = (Returns allData, snd run)) by (vm_compute; reflexivity).
  destruct (repositories allData) as [|repo rest] eqn:Erepos;
    [vm_compute in Erepos; discriminate Erepos |].
  destruct (pullRequests repo) as [|p prs] eqn:Eprs.
  { exfalso. assert (E : match repositories allData with
                         | r :: _ => pullRequests r
                         | [] => []
                         end = []) by (rewrite Erepos; exact Eprs).
    vm_compute in E. discriminate E. }
  assert (Hrepo : In repo (repositories allData)) by (rewrite Erepos; now left).
  assert (Hp : In p (pullRequests repo)) by (rewrite Eprs; now left).
  destruct (snapshot_summaries_consistent Demo.world _ _ _ _ Hrun repo Hrepo)
    as [_ Hprs].
  destruct (Hprs p Hp) as (Hcount & Hsum & _).
  assert (E : match repositories allData with
              | r :: _ => match pullRequests r with
                          | q :: _ => Some (pr q, actionableCount q)
                          | [] => None
                          end
              | [] => None
              end = Some (Demo.pr7, 3%nat)) by (vm_compute; reflexivity).
  rewrite Erepos, Eprs in E. injection E as Epr Ethree.
  exists allData, (snd run), repo, p. repeat split; assumption.
Defined.

(** ** The two writes of [fetchAllData] *)




(** ** Failing repositories *)

Section SkipFacts.
Import GitHubDataFetcher Denotation.
Variable w : World.

Lemma monitored_skip before bad after k :
  gh_repo_view w bad = None ->
  monitored w k (before ++ bad :: after) = monitored w k (before ++ after)
  /\ viewed w (before ++ bad :: after) = viewed w (before ++ after).
Proof.
  intros Hbad. revert k.
  induction before as [|repoName before IH]; intros k; simpl.
  - now rewrite Hbad.
  - destruct (gh_repo_view w repoName).
    + destruct (IH (S k)) as [-> ->]. now split.
    + apply IH.
Qed.

Lemma collectFrom_neverThrows configured : neverThrows (collectFrom w configured).
Proof.
  unfold collectFrom.
  apply bind_neverThrows.
  { apply tryCatch_neverThrows. intros e. apply ret_neverThrows. }
  intros repos. apply bind_neverThrows.
  { intros st. eexists; eexists; reflexivity. }
  intros now. apply bind_neverThrows; [| intros a; apply ret_neverThrows].
  apply forOf_neverThrows. intros repo acc.
  apply tryCatch_neverThrows. intros e. apply ret_neverThrows.
Qed.

End SkipFacts.

(** C2, as amended.  A configured repository whose metadata fetch throws, or
    whose pull-request listing throws, is skipped: the refresh proceeds as
    if it were not configured (the second kind costs one reading of the
    clock), so the snapshot holds the results of every other repository.
    No exception raised while repositories are fetched and processed
    escapes: the snapshot is always built, and [fetchAllData] returns it
    whenever both cache files can be written.  The only exceptions that
    reach the caller are those of the two writes. *)
Theorem failing_repositories_are_skipped (w : World) :
  (forall configured, neverThrows (GitHubDataFetcher.collectFrom w configured))
  /\ (forall owner repo prNumber,
         neverThrows (GitHubDataFetcher.getActionableComments w owner repo prNumber))
  /\ (forall configured st,
         writable (prData st) = true -> writable (lastUpdateInfo st) = true ->
         exists allData st',
           GitHubDataFetcher.fetchAllDataFrom w configured st = (Returns allData, st'))
  /\ (forall configured st e st',
         GitHubDataFetcher.fetchAllDataFrom w configured st = (Throws e, st') ->
         exists f, e = SystemError f /\ writable (file st f) = false)
  /\ (forall before bad after st,
         gh_repo_view w bad = None ->
         GitHubDataFetcher.fetchAllDataFrom w (before ++ bad :: after) st
         = GitHubDataFetcher.fetchAllDataFrom w (before ++ after) st)
  /\ (forall repos1 bad repos2 acc st,
         gh_pr_list w (repo_owner_login bad) (repo_name bad) = None ->
         forOf (repos1 ++ bad :: repos2) (GitHubDataFetcher.processRepository w) acc st
         = bind (forOf repos1 (GitHubDataFetcher.processRepository w) acc)
             (fun acc1 =>
                Date_now w ;;;
                forOf repos2 (GitHubDataFetcher.processRepository w) acc1)
             st).
Proof.
  split; [apply collectFrom_neverThrows |].
  split.
  { intros owner repo prNumber st.
    rewrite getActionableComments_denotes. eexists; eexists; reflexivity. }
  split; [| split; [| split]].
  - intros configured st W1 W2. rewrite fetchAllDataFrom_cases. cbv zeta.
    rewrite W1, W2. eexists; eexists; reflexivity.
  - intros configured st e st'. rewrite fetchAllDataFrom_cases. cbv zeta.
    destruct (writable (prData st)) eqn:W1.
    + destruct (writable (lastUpdateInfo st)) eqn:W2; [discriminate |].
      intros H. injection H as <- _. now exists lastUpdateFile.
    + intros H. injection H as <- _. now exists prDataFile.
  - intros before bad after st Hbad.
    rewrite !fetchAllDataFrom_cases. cbv zeta. unfold Denotation.snapshotOf.
    destruct (monitored_skip w before bad after (readings st) Hbad) as [-> ->].
    reflexivity.
  - intros repos1 bad repos2 acc st Hbad.
    rewrite forOf_app. unfold bind.
    destruct (forOf repos1 (GitHubDataFetcher.processRepository w) acc st)
      as [[acc1|e] st1]; [| reflexivity].
    simpl. unfold bind.
    rewrite processRepository_denotes. unfold Denotation.repositoryResult.
    rewrite Hbad, app_nil_r. reflexivity.
Qed.

Lemma failing_repositories_are_skipped_witness :
  (exists allData st',
      GitHubDataFetcher.fetchAllDataFrom Demo.world GitHubDataFetcher.reposToMonitor
        Demo.fresh = (Returns allData, st'))
  /\ (exists f,
         fst (GitHubDataFetcher.fetchAllDataFrom Demo.world
                GitHubDataFetcher.reposToMonitor Demo.metadataReadOnly)
         = Throws (SystemError f)
         /\ writable (file Demo.metadataReadOnly f) = false)
  /\ GitHubDataFetcher.fetchAllDataFrom Demo.world
       ([js "h1-aot/aot-base"] ++ js "ppaul-h-aot/MRToolGH" :: []) Demo.fresh
     = GitHubDataFetcher.fetchAllDataFrom Demo.world
         ([js "h1-aot/aot-base"] ++ []) Demo.fresh
  /\ forOf ([] ++ Demo.aotBase :: [])
       (GitHubDataFetcher.processRepository Demo.worldPrListDown) [] Demo.fresh
     = bind (forOf [] (GitHubDataFetcher.processRepository Demo.worldPrListDown) [])
         (fun acc1 =>
            Date_now Demo.worldPrListDown ;;;
            forOf [] (GitHubDataFetcher.processRepository Demo.worldPrListDown) acc1)
         Demo.fresh.
Proof.
  destruct (failing_repositories_are_skipped Demo.world)
    as (_ & _ & Hreturns & Hthrows & Hskip & _).
  destruct (failing_repositories_are_skipped Demo.worldPrListDown)
    as (_ & _ & _ & _ & _ & Hlist).
  split; [apply Hreturns; reflexivity |].
  split.
  - pose (run := GitHubDataFetcher.fetchAllDataFrom Demo.world
                   GitHubDataFetcher.reposToMonitor Demo.metadataReadOnly).
    assert (Hrun : run = (Throws (SystemError lastUpdateFile), snd run))
      by (vm_compute; reflexivity).
    destruct (Hthrows _ _ _ _ Hrun) as (f & Hf & Hw).
    exists f. split; [| exact Hw].
    fold run. rewrite Hrun. simpl. now rewrite Hf.
  - split; [apply Hskip; reflexivity | apply Hlist; reflexivity].
Defined.

(** An exception does escape [fetchAllData] while a configured repository
    fails: the second configured repository cannot be reached, the metadata
    file cannot be written, and the call throws instead of returning a
    snapshot. *)
Lemma refresh_throws_when_a_write_fails :
  In (js "ppaul-h-aot/MRToolGH") GitHubDataFetcher.reposToMonitor
  /\ gh_repo_view Demo.world (js "ppaul-h-aot/MRToolGH") = None
  /\ fst (GitHubDataFetcher.fetchAllData Demo.world Demo.metadataReadOnly)
     = Throws (SystemError lastUpdateFile)
  /\ ~ exists allData st',
         GitHubDataFetcher.fetchAllData Demo.world Demo.metadataReadOnly
         = (Returns allData, st').
Proof.
  split; [right; left; reflexivity |].
  split; [reflexivity |].
  split; [vm_compute; reflexivity |].
  intros (allData & st' & H).
  apply (f_equal fst) in H. vm_compute in H. discriminate H.
Qed.

(** ** The staleness window *)

Section StalenessFacts.
Import GitHubDataFetcher Denotation.
Variable w : World.

Lemma pushedSince_inv since repoData :
  pushedSince since repoData = true ->
  exists t, repo_pushedAt repoData = Some (Some t) /\ since <= t.
Proof.
  unfold pushedSince, date_ge.
  destruct (repo_pushedAt repoData) as [[t|]|]; try discriminate.
  intros H. exists t. split; [reflexivity | now apply Z.leb_le].
Qed.

Lemma monitored_recent configured k repoData :
  In repoData (monitored w k configured) ->
  exists i, (k <= i)%nat
            /\ pushedSince (clock w i - thirtyDays) repoData = true.
Proof.
  revert k. induction configured as [|repoName rest IH]; intros k; simpl;
    [contradiction |].
  destruct (gh_repo_view w repoName) as [rd|].
  - rewrite in_app_iff. intros [H | H].
    + destruct (pushedSince (clock w k - thirtyDays) rd) eqn:E; [| contradiction].
      destruct H as [<- | []]. exists k. split; [lia | exact E].
    + apply IH in H as (i & Hi & Hp). exists i. split; [lia | exact Hp].
  - apply IH.
Qed.

End StalenessFacts.

(** C6.  Let [T] be an instant no reading of the clock made by the refresh
    precedes (the instant the refresh starts).  Every repository of the
    snapshot [fetchAllData] returns was last pushed no more than 30 days
    before [T]; none was last pushed 31 days before [T]; and a configured
    repository last pushed 31 days before [T] is left out of the list of
    repositories to monitor, whatever its pull requests. *)
Theorem stale_repositories_are_excluded (w : World) (configured : list jsstring)
    (st : state) (T : Z) :
  (forall k, (readings st <= k)%nat -> T <= clock w k) ->
  (forall allData st' r,
      GitHubDataFetcher.fetchAllDataFrom w configured st = (Returns allData, st') ->
      In r (repositories allData) ->
      exists t, lastPush r = Some (Some t)
                /\ T - GitHubDataFetcher.thirtyDays <= t)
  /\ (forall allData st' r,
         GitHubDataFetcher.fetchAllDataFrom w configured st = (Returns allData, st') ->
         In r (repositories allData) ->
         lastPush r <> Some (Some (T - thirtyOneDays)))
  /\ (forall repoName repoData repos st1,
         (readings st <= readings st1)%nat ->
         gh_repo_view w repoName = Some repoData ->
         repo_pushedAt repoData = Some (Some (T - thirtyOneDays)) ->
         GitHubDataFetcher.monitorRepository w repoName repos st1
         = (Returns repos, tick st1)).
Proof.
  intros Hclock.
  assert (Hin : forall allData st' r,
             GitHubDataFetcher.fetchAllDataFrom w configured st = (Returns allData, st') ->
             In r (repositories allData) ->
             exists t, lastPush r = Some (Some t)
                       /\ T - GitHubDataFetcher.thirtyDays <= t).
  { intros allData st' r Hrun Hr.
    apply fetchAllDataFrom_returns in Hrun as (-> & _).
    apply repositoryResults_inv in Hr as (_ & repo & Hrepo & ->).
    apply monitored_recent in Hrepo as (i & Hi & Hp).
    apply pushedSince_inv in Hp as (t & Ht & Hle).
    exists t. split; [exact Ht |].
    specialize (Hclock i Hi). lia. }
  split; [exact Hin | split].
  - intros allData st' r Hrun Hr Hstale.
    destruct (Hin allData st' r Hrun Hr) as (t & Ht & Hle).
    rewrite Hstale in Ht. injection Ht as <-.
    unfold GitHubDataFetcher.thirtyDays, thirtyOneDays in Hle. lia.
  - intros repoName repoData repos st1 Hst1 Hview Hpushed.
    rewrite monitorRepository_denotes, Hview.
    unfold Denotation.pushedSince. rewrite Hpushed. unfold date_ge.
    specialize (Hclock (readings st1) Hst1).
    destruct (Z.leb_spec (clock w (readings st1) - GitHubDataFetcher.thirtyDays)
                (T - thirtyOneDays)) as [Hle | _].
    + unfold GitHubDataFetcher.thirtyDays, thirtyOneDays in Hle. lia.
    + now rewrite app_nil_r.
Qed.

Lemma stale_repositories_are_excluded_witness :
  (forall k, (readings Demo.fresh <= k)%nat -> Demo.t0 <= clock Demo.worldWithStaleRepo k)
  /\ (exists allData st' r t,
         GitHubDataFetcher.fetchAllDataFrom Demo.worldWithStaleRepo
           GitHubDataFetcher.reposToMonitor Demo.fresh = (Returns allData, st')
         /\ In r (repositories allData)
         /\ lastPush r = Some (Some t)
         /\ Demo.t0 - GitHubDataFetcher.thirtyDays <= t
         /\ lastPush r <> Some (Some (Demo.t0 - thirtyOneDays)))
  /\ GitHubDataFetcher.monitorRepository Demo.worldWithStaleRepo
       (js "ppaul-h-aot/MRToolGH") [Demo.aotBase] (tick Demo.fresh)
     = (Returns [Demo.aotBase], tick (tick Demo.fresh)).
Proof.
  assert (Hclock : forall k, (readings Demo.fresh <= k)%nat ->
                             Demo.t0 <= clock Demo.worldWithStaleRepo k).
  { intros k _. cbv [clock Demo.worldWithStaleRepo Demo.world]. lia. }
  destruct (stale_repositories_are_excluded Demo.worldWithStaleRepo
              GitHubDataFetcher.reposToMonitor Demo.fresh Demo.t0 Hclock)
    as (Hrecent & Hnot31 & Hskip).
  split; [exact Hclock | split].
  - pose (run := GitHubDataFetcher.fetchAllDataFrom Demo.worldWithStaleRepo
                   GitHubDataFetcher.reposToMonitor Demo.fresh).
    pose (allData := Denotation.snapshotOf Demo.worldWithStaleRepo 0
                       GitHubDataFetcher.reposToMonitor).
    assert (Hrun : run = (Returns allData, snd run)) by (vm_compute; reflexivity).
    destruct (repositories allData) as [|r rest] eqn:Erepos;
      [vm_compute in Erepos; discriminate Erepos |].
    assert (Hr : In r (repositories allData)) by (rewrite Erepos; now left).
    destruct (Hrecent allData (snd run) r Hrun Hr) as (t & Ht & Hle).
    exists allData, (snd run), r, t.
    repeat split; try assumption.
    exact (Hnot31 allData (snd run) r Hrun Hr).
  - apply (Hskip (js "ppaul-h-aot/MRToolGH") Demo.staleRepo);
      [simpl; lia | reflexivity | reflexivity].
Defined.

(** ** Reading the cache *)

Lemma loadJSON_cases (w : World) (f : CacheFile) (st : state) :
  GitHubDataFetcher.loadJSON w f st
  = (Returns match file st f with
             | RegularFile text true _ =>
                 match JSON_parse w text with
                 | Some v => v
                 | None => JNull
                 end
             | _ => JNull
             end, st).
Proof.
  unfold GitHubDataFetcher.loadJSON, tryCatch, bind, existsSync, readFileSync.
  destruct (file st f) as [|text [|] wr|] eqn:E; simpl; rewrite ?E;
    try reflexivity.
  destruct (JSON_parse w text); reflexivity.
Qed.

(** C7.  [loadCachedData] and [getLastUpdateInfo] return [null] when their
    file is missing and when its text does not parse as JSON; in every state
    of the file system they return a value and throw nothing. *)
Theorem cached_reads_never_throw (w : World) (st : state) :
  (exists v, GitHubDataFetcher.loadCachedData w st = (Returns v, st))
  /\ (exists v, GitHubDataFetcher.getLastUpdateInfo w st = (Returns v, st))
  /\ (prData st = NoEntry ->
      GitHubDataFetcher.loadCachedData w st = (Returns JNull, st))
  /\ (lastUpdateInfo st = NoEntry ->
      GitHubDataFetcher.getLastUpdateInfo w st = (Returns JNull, st))
  /\ (forall text r wr,
         prData st = RegularFile text r wr -> JSON_parse w text = None ->
         GitHubDataFetcher.loadCachedData w st = (Returns JNull, st))
  /\ (forall text r wr,
         lastUpdateInfo st = RegularFile text r wr -> JSON_parse w text = None ->
         GitHubDataFetcher.getLastUpdateInfo w st = (Returns JNull, st)).
Proof.
  unfold GitHubDataFetcher.loadCachedData, GitHubDataFetcher.getLastUpdateInfo.
  rewrite !loadJSON_cases. simpl.
  split; [eexists; reflexivity |].
  split; [eexists; reflexivity |].
  split; [intros ->; reflexivity |].
  split; [intros ->; reflexivity |].
  split; intros text r wr -> ->; destruct r; reflexivity.
Qed.

Lemma cached_reads_never_throw_witness :
  GitHubDataFetcher.loadCachedData Demo.world Demo.fresh = (Returns JNull, Demo.fresh)
  /\ GitHubDataFetcher.getLastUpdateInfo Demo.world Demo.fresh
     = (Returns JNull, Demo.fresh)
  /\ GitHubDataFetcher.loadCachedData Demo.world Demo.corrupted
     = (Returns JNull, Demo.corrupted)
  /\ GitHubDataFetcher.getLastUpdateInfo Demo.world Demo.metadataReadOnly
     = (Returns JNull, Demo.metadataReadOnly).
Proof.
  destruct (cached_reads_never_throw Demo.world Demo.fresh)
    as (_ & _ & Hmissing & Hmissing' & _).
  destruct (cached_reads_never_throw Demo.world Demo.corrupted)
    as (_ & _ & _ & _ & Hcorrupted & _).
  destruct (cached_reads_never_throw Demo.world Demo.metadataReadOnly)
    as (_ & _ & _ & _ & _ & Hcorrupted').
  split; [apply Hmissing; reflexivity |].
  split; [apply Hmissing'; reflexivity |].
  split.
  - apply (Hcorrupted (js "{lastUpdate:") true true); reflexivity.
  - apply (Hcorrupted'
             (js "{lastUpdate:1,repositoryCount:0,totalPRs:0,totalActionableComments:0}")
             true false); reflexivity.
Defined.

(** ** The scheduler *)

Section SchedulerFacts.
Import GitHubDataFetcher.
Variable w : World.




Lemma runFetch_returns st : exists st', runFetch w st = (Returns true, st').
Proof.
  unfold runFetch, tryCatch, bind.
  destruct (fetchAllData w st) as [[allData|e] st']; eexists; reflexivity.
Qed.

End SchedulerFacts.



(* ===================================================================== *)
(** * Further properties *)
(* ===================================================================== *)

(** ** The classifier, continued *)

Lemma test_single_char (c : N) (input : jsstring) :
  In c input -> RegExp.test (RegExp.Chars [c]) input = true.
Proof.
  intros Hin. apply in_split in Hin as (l1 & l2 & ->).
  unfold RegExp.test. apply existsb_exists.
  exists (List.length l1). split.
  - apply in_seq. rewrite length_app. simpl. lia.
  - unfold RegExp.matchesAt. cbn [RegExp.ends].
    rewrite skipn_app, skipn_all, Nat.sub_diag.
    cbn [skipn app RegExp.startsWith]. rewrite N.eqb_refl.
    now destruct l2.
Qed.

Lemma classify_actionable_inv (lower : jsstring -> jsstring) (body : option jsstring) :
  actionable (DataFetcherClassifier.isCommentActionable lower body) = true ->
  falsy body = false
  /\ pairedVerdict (type (DataFetcherClassifier.isCommentActionable lower body))
       (severity (DataFetcherClassifier.isCommentActionable lower body)).
Proof.
  unfold DataFetcherClassifier.isCommentActionable, pairedVerdict.
  destruct body as [[|c text]|]; simpl; try discriminate.
  repeat match goal with
         | |- context [if ?b then _ else _] => destruct b; simpl
         end; intros H; try discriminate; split; try reflexivity; tauto.
Qed.

(** X1.  Upper and lower case of the letters A-Z make no difference: two
    ASCII bodies that agree once A-Z is lower-cased get the same verdict. *)
Theorem classify_ignores_ascii_case (lower : jsstring -> jsstring) (s t : jsstring) :
  lowersAscii lower ->
  forallb isAscii s = true ->
  forallb isAscii t = true ->
  map asciiLower s = map asciiLower t ->
  DataFetcherClassifier.isCommentActionable lower (Some s)
  = DataFetcherClassifier.isCommentActionable lower (Some t).
Proof.
  intros Hlower Hs Ht Heq.
  destruct s as [|x s], t as [|y t]; try discriminate Heq; [reflexivity |].
  rewrite !classify_cascade. cbv zeta.
  now rewrite (Hlower _ Hs), (Hlower _ Ht), Heq.
Qed.

Lemma classify_ignores_ascii_case_witness :
  lowersAscii Demo.asciiToLowerCase
  /\ map asciiLower (js "Please FIX this") = map asciiLower (js "please fix THIS")
  /\ DataFetcherClassifier.isCommentActionable Demo.asciiToLowerCase
       (Some (js "Please FIX this"))
     = DataFetcherClassifier.isCommentActionable Demo.asciiToLowerCase
         (Some (js "please fix THIS")).
Proof.
  split; [exact asciiToLowerCase_lowersAscii |].
  split; [reflexivity |].
  apply (classify_ignores_ascii_case Demo.asciiToLowerCase
           (js "Please FIX this") (js "please fix THIS")
           asciiToLowerCase_lowersAscii); reflexivity.
Defined.

(** X2.  A question mark is enough: a non-empty body whose lower-cased text
    contains "?" is never classified [{ actionable: false }]; for an ASCII
    body it suffices that the body itself contains "?". *)
Theorem question_mark_is_actionable (lower : jsstring -> jsstring) :
  (forall body,
      body <> [] -> In 63%N (lower body) ->
      actionable (DataFetcherClassifier.isCommentActionable lower (Some body)) = true)
  /\ (lowersAscii lower ->
      forall body,
        forallb isAscii body = true -> In 63%N body ->
        actionable (DataFetcherClassifier.isCommentActionable lower (Some body)) = true).
Proof.
  assert (Hq : forall body,
             body <> [] -> In 63%N (lower body) ->
             actionable (DataFetcherClassifier.isCommentActionable lower (Some body))
             = true).
  { intros [|c text] Hne Hin; [congruence |].
    rewrite classify_cascade. cbv zeta.
    assert (Hmatch : anyPatternMatches DataFetcherClassifier.questionPatterns
                       (lower (c :: text)) = true).
    { unfold DataFetcherClassifier.questionPatterns.
      change (js "?") with [63%N]. simpl.
      now rewrite (test_single_char 63 _ Hin). }
    rewrite Hmatch.
    repeat match goal with
           | |- context [if ?b then _ else _] => destruct b
           end; reflexivity. }
  split; [exact Hq |].
  intros Hlower body Hascii Hin. apply Hq.
  - intros ->. contradiction.
  - rewrite (Hlower _ Hascii).
    change 63%N with (asciiLower 63). now apply in_map.
Qed.

Lemma question_mark_is_actionable_witness :
  lowersAscii Demo.asciiToLowerCase
  /\ In 63%N (js "lgtm?")
  /\ actionable (DataFetcherClassifier.isCommentActionable Demo.asciiToLowerCase
                   (Some (js "lgtm?"))) = true
  /\ actionable (DataFetcherClassifier.isCommentActionable Demo.asciiToLowerCase
                   (Some (js "ok ?"))) = true.
Proof.
  destruct (question_mark_is_actionable Demo.asciiToLowerCase) as [Hany Hascii].
  assert (Hin : In 63%N (js "lgtm?")) by (vm_compute; tauto).
  split; [exact asciiToLowerCase_lowersAscii | split; [exact Hin | split]].
  - apply (Hascii asciiToLowerCase_lowersAscii); [reflexivity | exact Hin].
  - apply Hany; [discriminate | vm_compute; tauto].
Defined.

(** ** [getActionableComments], continued *)

Section EntryFacts.
Import GitHubDataFetcher Denotation.
Variable w : World.

Lemma In_keptReviewComments c cs :
  In c (keptReviewComments w cs) ->
  exists comment,
    In comment cs
    /\ actionable (isCommentActionable w (rc_body comment)) = true
    /\ c = reviewCommentEntry comment (isCommentActionable w (rc_body comment)).
Proof.
  unfold keptReviewComments. rewrite in_flat_map.
  intros (comment & Hin & Hc). cbv zeta in Hc.
  destruct (actionable (isCommentActionable w (rc_body comment))) eqn:E;
    [| contradiction].
  destruct Hc as [<- | []]. eauto.
Qed.

Lemma In_keptGeneralComments owner repo n c cs :
  In c (keptGeneralComments w owner repo n cs) ->
  exists comment,
    In comment cs
    /\ actionable (isCommentActionable w (gc_body comment)) = true
    /\ c = generalCommentEntry owner repo n comment
             (isCommentActionable w (gc_body comment)).
Proof.
  unfold keptGeneralComments. rewrite in_flat_map.
  intros (comment & Hin & Hc). cbv zeta in Hc.
  destruct (actionable (isCommentActionable w (gc_body comment))) eqn:E;
    [| contradiction].
  destruct Hc as [<- | []]. eauto.
Qed.

Lemma fetchedComments_wellFormed owner repo n :
  Forall wellFormedEntry (fetchedComments w owner repo n).
Proof.
  unfold fetchedComments.
  destruct (gh_pulls_comments w owner repo n) as [rcs|]; [| constructor].
  destruct (gh_pr_view_comments w owner repo n) as [gcr|]; [| constructor].
  destruct (gh_pulls_reviews w owner repo n) as [rvs|]; [| constructor].
  apply Forall_forall. intros c Hc.
  rewrite !in_app_iff in Hc. destruct Hc as [Hc | [Hc | Hc]].
  - apply In_keptReviewComments in Hc as (comment & _ & Ha & ->).
    destruct (classify_actionable_inv _ _ Ha) as [Hbody Hpair].
    unfold wellFormedEntry; simpl. auto.
  - apply In_keptGeneralComments in Hc as (comment & _ & Ha & ->).
    destruct (classify_actionable_inv _ _ Ha) as [Hbody Hpair].
    unfold wellFormedEntry; simpl. auto.
  - unfold keptReviews in Hc. apply in_map_iff in Hc as (r & <- & Hr).
    apply filter_In in Hr as [_ Hr].
    apply reviewContributes_iff in Hr as (Hbody & Hstate & Ha).
    destruct (classify_actionable_inv _ _ Ha) as [_ Hpair].
    unfold wellFormedEntry; simpl. eauto.
Qed.




End EntryFacts.

(** X3.  Every comment [getActionableComments] returns has a non-empty
    body and carries one of the five type/severity pairs of the classifier
    (so [high] goes with [fix_required] and [low] with [suggestion]); an
    entry built from a review records a state other than 'COMMENTED', an
    entry built from a comment records no state. *)
Theorem actionable_entries_well_formed (w : World) (owner repo : jsstring)
    (prNumber : Z) (st st' : state) (cs : list ActionableComment) :
  GitHubDataFetcher.getActionableComments w owner repo prNumber st = (Returns cs, st') ->
  forall c, In c cs ->
    falsy (c_body c) = false
    /\ pairedVerdict (c_actionType c) (c_severity c)
    /\ match c_type c with
       | review => exists s, c_state c = Some s /\ s <> js "COMMENTED"
       | _ => c_state c = None
       end.
Proof.
  rewrite getActionableComments_denotes. intros H c Hc.
  injection H as <- _.
  exact (proj1 (Forall_forall _ _) (fetchedComments_wellFormed w owner repo prNumber) c Hc).
Qed.

Lemma actionable_entries_well_formed_witness :
  exists cs c,
    GitHubDataFetcher.getActionableComments Demo.world (js "h1-aot") (js "aot-base") 8
      Demo.fresh = (Returns cs, Demo.fresh)
    /\ In c cs
    /\ c_type c = review
    /\ falsy (c_body c) = false
    /\ pairedVerdict (c_actionType c) (c_severity c).
Proof.
  pose (c := GitHubDataFetcher.reviewEntry Demo.changesRequested
               (verdict improvement_needed medium)).
  assert (Hrun : GitHubDataFetcher.getActionableComments Demo.world (js "h1-aot")
                   (js "aot-base") 8 Demo.fresh = (Returns [c], Demo.fresh))
    by (vm_compute; reflexivity).
  destruct (actionable_entries_well_formed _ _ _ _ _ _ _ Hrun c (or_introl eq_refl))
    as (Hbody & Hpair & _).
  exists [c], c.
  split; [exact Hrun | split; [now left | split; [reflexivity | split; assumption]]].
Defined.



(** X5.  The three fetches stand or fall together: as soon as one of them
    fails, [getActionableComments] returns the empty list, whatever the
    other two answered, and throws nothing. *)
Theorem one_failed_fetch_empties_the_comments (w : World) (owner repo : jsstring)
    (prNumber : Z) (st : state) :
  gh_pulls_comments w owner repo prNumber = None
  \/ gh_pr_view_comments w owner repo prNumber = None
  \/ gh_pulls_reviews w owner repo prNumber = None ->
  GitHubDataFetcher.getActionableComments w owner repo prNumber st = (Returns [], st).
Proof.
  intros H. rewrite getActionableComments_denotes.
  unfold Denotation.fetchedComments.
  destruct (gh_pulls_comments w owner repo prNumber); [| reflexivity].
  destruct (gh_pr_view_comments w owner repo prNumber); [| reflexivity].
  destruct (gh_pulls_reviews w owner repo prNumber); [| reflexivity].
  destruct H as [H | [H | H]]; discriminate H.
Qed.

Lemma one_failed_fetch_empties_the_comments_witness :
  gh_pulls_comments Scenarios.reviewsDown (js "h1-aot") (js "aot-base") 7 <> None
  /\ GitHubDataFetcher.getActionableComments Scenarios.reviewsDown (js "h1-aot")
       (js "aot-base") 7 Demo.fresh = (Returns [], Demo.fresh).
Proof.
  split; [discriminate |].
  apply (one_failed_fetch_empties_the_comments Scenarios.reviewsDown).
  right; right; reflexivity.
Defined.

(** ** The repositories to monitor, continued *)

Section MonitorFacts.
Import GitHubDataFetcher Denotation.
Variable w : World.

Lemma monitored_inv configured k repoData :
  In repoData (monitored w k configured) ->
  exists repoName, In repoName configured /\ gh_repo_view w repoName = Some repoData.
Proof.
  revert k. induction configured as [|repoName rest IH]; intros k; simpl;
    [contradiction |].
  destruct (gh_repo_view w repoName) as [rd|] eqn:E.
  - rewrite in_app_iff. intros [H | H].
    + destruct (pushedSince _ rd); [| contradiction].
      destruct H as [<- | []]. eauto.
    + apply IH in H as (name' & Hin & Hview). eauto.
  - intros H. apply IH in H as (name' & Hin & Hview). eauto.
Qed.

Lemma length_monitored configured k :
  (List.length (monitored w k configured) <= viewed w configured)%nat.
Proof.
  revert k. induction configured as [|repoName rest IH]; intros k; simpl; [lia |].
  destruct (gh_repo_view w repoName) as [rd|]; [| apply IH].
  rewrite length_app. specialize (IH (S k)).
  destruct (pushedSince _ rd); simpl; lia.
Qed.

Lemma viewed_le configured : (viewed w configured <= List.length configured)%nat.
Proof.
  induction configured as [|repoName rest IH]; simpl; [lia |].
  destruct (gh_repo_view w repoName); lia.
Qed.

Lemma all_unreachable configured k :
  (forall repoName, In repoName configured -> gh_repo_view w repoName = None) ->
  monitored w k configured = [] /\ viewed w configured = 0%nat.
Proof.
  induction configured as [|repoName rest IH]; intros H; simpl; [now split |].
  rewrite (H repoName (or_introl eq_refl)).
  apply IH. intros name' Hin. apply H. now right.
Qed.

Lemma repositoryResult_shape now repo r :
  In r (repositoryResult w now repo) ->
  owner r = repo_owner_login repo /\ name r = repo_name repo
  /\ exists listed,
       gh_pr_list w (repo_owner_login repo) (repo_name repo) = Some listed
       /\ pullRequests r
          = summariesOf w repo
              (filter (fun p => date_ge (pr_createdAt p) (Some (now - thirtyDays)))
                 listed).
Proof.
  unfold repositoryResult.
  destruct (gh_pr_list w _ _) as [listed|]; [| contradiction]. cbv zeta.
  destruct (0 <? List.length _)%nat; [| contradiction].
  intros [<- | []]. simpl. eauto.
Qed.

Lemma repositoryResults_origin k repos r :
  In r (repositoryResults w k repos) ->
  exists i repo, (k <= i)%nat /\ In repo repos
                 /\ In r (repositoryResult w (clock w i) repo).
Proof.
  revert k. induction repos as [|repo repos IH]; intros k; simpl; [contradiction |].
  rewrite in_app_iff. intros [H | H].
  - exists k, repo. split; [lia | split; [now left | exact H]].
  - apply IH in H as (i & repo' & Hi & Hin & Hr).
    exists i, repo'. split; [lia | split; [now right | exact Hr]].
Qed.

Lemma length_repositoryResults k repos :
  (List.length (repositoryResults w k repos) <= List.length repos)%nat.
Proof.
  revert k. induction repos as [|repo repos IH]; intros k; simpl; [lia |].
  rewrite length_app. specialize (IH (S k)).
  assert (List.length (repositoryResult w (clock w k) repo) <= 1)%nat.
  { unfold repositoryResult. destruct (gh_pr_list w _ _); [| simpl; lia].
    cbv zeta. destruct (0 <? List.length _)%nat; simpl; lia. }
  lia.
Qed.

Lemma summariesOf_origin repo prs p :
  In p (summariesOf w repo prs) ->
  In (pr p) prs
  /\ actionableComments p
     = fetchedComments w (repo_owner_login repo) (repo_name repo) (pr_number (pr p)).
Proof.
  unfold summariesOf. rewrite in_flat_map.
  intros (q & Hq & Hp). cbv zeta in Hp.
  destruct (0 <? List.length _)%nat; [| contradiction].
  destruct Hp as [<- | []]. simpl. now split.
Qed.

End MonitorFacts.

(** X6.  [getRepositoriesToMonitor] always returns.  Each repository it
    returns is the answer of [gh repo view] for one of the configured names
    and has a parseable [pushedAt]; it returns no more repositories than
    are configured, reads the clock at most once per configured name and
    leaves the two cache files alone. *)
Theorem monitored_repositories_are_viewed (w : World) (configured : list jsstring)
    (st : state) :
  exists repos st',
    GitHubDataFetcher.getRepositoriesToMonitorFrom w configured st = (Returns repos, st')
    /\ (forall repoData, In repoData repos ->
          exists repoName t,
            In repoName configured
            /\ gh_repo_view w repoName = Some repoData
            /\ repo_pushedAt repoData = Some (Some t))
    /\ (List.length repos <= List.length configured)%nat
    /\ (readings st <= readings st' <= readings st + List.length configured)%nat
    /\ prData st' = prData st
    /\ lastUpdateInfo st' = lastUpdateInfo st.
Proof.
  eexists; eexists. split; [apply getRepositoriesToMonitorFrom_denotes |].
  pose proof (viewed_le w configured) as Hv.
  pose proof (length_monitored w configured (readings st)) as Hl.
  split; [| simpl; repeat split; lia].
  intros repoData Hin.
  destruct (monitored_recent w _ _ _ Hin) as (i & _ & Hp).
  apply pushedSince_inv in Hp as (t & Ht & _).
  apply monitored_inv in Hin as (repoName & Hname & Hview).
  eauto.
Qed.

Lemma monitored_repositories_are_viewed_witness :
  exists repos st',
    GitHubDataFetcher.getRepositoriesToMonitorFrom Demo.worldWithStaleRepo
      GitHubDataFetcher.reposToMonitor Demo.fresh = (Returns repos, st')
    /\ In Demo.aotBase repos
    /\ exists repoName t,
         In repoName GitHubDataFetcher.reposToMonitor
         /\ gh_repo_view Demo.worldWithStaleRepo repoName = Some Demo.aotBase
         /\ repo_pushedAt Demo.aotBase = Some (Some t).
Proof.
  destruct (monitored_repositories_are_viewed Demo.worldWithStaleRepo
              GitHubDataFetcher.reposToMonitor Demo.fresh)
    as (repos & st' & Hrun & Hall & _).
  assert (Hin : In Demo.aotBase repos).
  { rewrite getRepositoriesToMonitorFrom_denotes in Hrun.
    injection Hrun as <- _. vm_compute. now left. }
  exists repos, st'. split; [exact Hrun | split; [exact Hin | exact (Hall _ Hin)]].
Defined.

(** ** The refresh as a whole, continued *)

(** X7.  A refresh while no configured repository can be reached does not
    fail: on writable cache files [fetchAllData] returns a snapshot without
    repositories and overwrites both files with it, the counts of the
    metadata all zero. *)
Theorem unreachable_github_empties_the_cache (w : World) (configured : list jsstring)
    (st : state) :
  (forall repoName, In repoName configured -> gh_repo_view w repoName = None) ->
  writable (prData st) = true ->
  writable (lastUpdateInfo st) = true ->
  let empty := mkCacheSnapshot (clock w (readings st)) [] in
  exists st',
    GitHubDataFetcher.fetchAllDataFrom w configured st = (Returns empty, st')
    /\ holds (prData st') (stringify_snapshot w empty)
    /\ holds (lastUpdateInfo st')
         (stringify_metadata w (mkUpdateMetadata (clock w (readings st)) 0 0 0)).
Proof.
  intros Hdown W1 W2 empty.
  destruct (all_unreachable w configured (readings st) Hdown) as [Hm Hv].
  assert (Hsnap : Denotation.snapshotOf w (readings st) configured = empty).
  { unfold Denotation.snapshotOf, empty. rewrite Hm, Hv. simpl.
    now rewrite Nat.add_0_r. }
  eexists. split; [| split].
  - rewrite fetchAllDataFrom_cases. cbv zeta. rewrite W1, W2, Hsnap. reflexivity.
  - simpl. now apply overwritten_holds.
  - simpl. now apply overwritten_holds.
Qed.

Lemma unreachable_github_empties_the_cache_witness :
  exists st',
    GitHubDataFetcher.fetchAllDataFrom Scenarios.githubDown
      GitHubDataFetcher.reposToMonitor Scenarios.cached
    = (Returns (mkCacheSnapshot Demo.t0 []), st')
    /\ holds (prData st') (js "{lastUpdate:1700000000000,repositories:0}").
Proof.
  destruct (unreachable_github_empties_the_cache Scenarios.githubDown
              GitHubDataFetcher.reposToMonitor Scenarios.cached
              (fun _ _ => eq_refl) eq_refl eq_refl) as (st' & Hrun & Hsnap & _).
  exists st'. split; [exact Hrun | exact Hsnap].
Defined.

(** X8.  What a refresh wrote is what the next read finds: after
    [fetchAllData] has returned, [loadCachedData] returns [JSON.parse] of
    the snapshot text just written and [getLastUpdateInfo] that of the
    metadata text ([null] if [JSON.parse] rejects the text), provided the
    files were not unreadable before the refresh. *)
Theorem cache_read_after_refresh (w : World) (configured : list jsstring)
    (st st' : state) (allData : CacheSnapshot) :
  GitHubDataFetcher.fetchAllDataFrom w configured st = (Returns allData, st') ->
  readableOnceWritten (prData st) ->
  readableOnceWritten (lastUpdateInfo st) ->
  GitHubDataFetcher.loadCachedData w st'
  = (Returns (parsedOrNull w (stringify_snapshot w allData)), st')
  /\ GitHubDataFetcher.getLastUpdateInfo w st'
     = (Returns (parsedOrNull w
                   (stringify_metadata w (GitHubDataFetcher.metadataOf allData))), st').
Proof.
  intros Hrun R1 R2.
  apply fetchAllDataFrom_returns in Hrun as (_ & W1 & W2 & E1 & E2).
  unfold GitHubDataFetcher.loadCachedData, GitHubDataFetcher.getLastUpdateInfo.
  rewrite !loadJSON_cases. simpl. rewrite E1, E2. unfold parsedOrNull.
  split.
  - destruct (prData st) as [|text [|] wr|]; simpl; try reflexivity;
      try discriminate W1. exfalso. now apply (R1 text wr).
  - destruct (lastUpdateInfo st) as [|text [|] wr|]; simpl; try reflexivity;
      try discriminate W2. exfalso. now apply (R2 text wr).
Qed.

Lemma cache_read_after_refresh_witness :
  exists allData st',
    GitHubDataFetcher.fetchAllDataFrom Demo.world GitHubDataFetcher.reposToMonitor
      Scenarios.cached = (Returns allData, st')
    /\ GitHubDataFetcher.loadCachedData Demo.world st'
       = (Returns (parsedOrNull Demo.world (Demo.printSnapshot allData)), st').
Proof.
  pose (run := GitHubDataFetcher.fetchAllDataFrom Demo.world
                 GitHubDataFetcher.reposToMonitor Scenarios.cached).
  assert (Hrun : run = (Returns (Denotation.snapshotOf Demo.world 0
                                   GitHubDataFetcher.reposToMonitor), snd run))
    by (vm_compute; reflexivity).
  destruct (cache_read_after_refresh Demo.world _ _ _ _ Hrun) as [Hload _].
  - intros text wr H. discriminate H.
  - intros text wr H. discriminate H.
  - eexists; eexists. split; [exact Hrun | exact Hload].
Defined.

Lemma sumOf_ge_length {A} (f : A -> nat) (xs : list A) :
  Forall (fun x => (1 <= f x)%nat) xs -> (List.length xs <= sumOf f xs)%nat.
Proof.
  unfold sumOf. induction 1 as [|x xs Hx _ IH]; simpl; lia.
Qed.

Lemma sumOf_le {A} (f g : A -> nat) (xs : list A) :
  Forall (fun x => (f x <= g x)%nat) xs -> (sumOf f xs <= sumOf g xs)%nat.
Proof.
  unfold sumOf. induction 1 as [|x xs Hx _ IH]; simpl; lia.
Qed.

Lemma wellFormedPR_counted (p : PullRequestSummary) :
  wellFormedPR p -> (1 <= actionableCount p)%nat.
Proof.
  intros (Hcount & _ & Hne). rewrite Hcount.
  destruct (actionableComments p); [congruence | simpl; lia].
Qed.

(** X9.  The metadata a refresh writes is ordered: there are at least as
    many pull requests as repositories and at least as many actionable
    comments as pull requests, and no more repositories than are
    configured. *)
Theorem metadata_counts_are_ordered (w : World) (configured : list jsstring)
    (st st' : state) (allData : CacheSnapshot) :
  GitHubDataFetcher.fetchAllDataFrom w configured st = (Returns allData, st') ->
  let metadata := GitHubDataFetcher.metadataOf allData in
  (repositoryCount metadata <= totalPRs metadata)%nat
  /\ (totalPRs metadata <= totalActionableComments metadata)%nat
  /\ (repositoryCount metadata <= List.length configured)%nat.
Proof.
  intros Hrun metadata.
  pose proof (snapshot_summaries_wellFormed w configured st st' allData Hrun) as Hwf.
  unfold metadata, GitHubDataFetcher.metadataOf; simpl.
  rewrite countPRs_sum, countActionable_sum.
  split; [| split].
  - apply sumOf_ge_length. apply Forall_forall. intros r Hr.
    destruct (Hwf r Hr) as [Hne _].
    destruct (pullRequests r); [congruence | simpl; lia].
  - apply sumOf_le. apply Forall_forall. intros r Hr.
    destruct (Hwf r Hr) as [_ Hprs].
    apply sumOf_ge_length. revert Hprs. apply Forall_impl.
    exact wellFormedPR_counted.
  - apply fetchAllDataFrom_returns in Hrun as (-> & _).
    unfold Denotation.snapshotOf; simpl.
    pose proof (length_repositoryResults w
                  (S (readings st + Denotation.viewed w configured))
                  (Denotation.monitored w (readings st) configured)).
    pose proof (length_monitored w configured (readings st)).
    pose proof (viewed_le w configured). lia.
Qed.

Lemma metadata_counts_are_ordered_witness :
  exists allData st',
    GitHubDataFetcher.fetchAllDataFrom Demo.world GitHubDataFetcher.reposToMonitor
      Demo.fresh = (Returns allData, st')
    /\ (repositoryCount (GitHubDataFetcher.metadataOf allData)
        <= totalPRs (GitHubDataFetcher.metadataOf allData))%nat
    /\ (totalPRs (GitHubDataFetcher.metadataOf allData)
        <= totalActionableComments (GitHubDataFetcher.metadataOf allData))%nat
    /\ totalActionableComments (GitHubDataFetcher.metadataOf allData) = 4%nat.
Proof.
  pose (run := GitHubDataFetcher.fetchAllDataFrom Demo.world
                 GitHubDataFetcher.reposToMonitor Demo.fresh).
  assert (Hrun : run = (Returns (Denotation.snapshotOf Demo.world 0
                                   GitHubDataFetcher.reposToMonitor), snd run))
    by (vm_compute; reflexivity).
  destruct (metadata_counts_are_ordered Demo.world _ _ _ _ Hrun) as (H1 & H2 & _).
  eexists; eexists.
  split; [exact Hrun | split; [exact H1 | split; [exact H2 |]]].
  vm_compute. reflexivity.
Defined.

(** X10.  Let [T] be an instant no reading of the clock made by the refresh
    precedes.  Every pull request of a repository of the snapshot was
    listed by [gh pr list] for that repository, was created no more than 30
    days before [T], and carries exactly the comments
    [getActionableComments] returns for it. *)
Theorem snapshot_pull_requests_are_recent (w : World) (configured : list jsstring)
    (st st' : state) (T : Z) (allData : CacheSnapshot) :
  (forall k, (readings st <= k)%nat -> T <= clock w k) ->
  GitHubDataFetcher.fetchAllDataFrom w configured st = (Returns allData, st') ->
  forall r p, In r (repositories allData) -> In p (pullRequests r) ->
    (exists listed, gh_pr_list w (owner r) (name r) = Some listed /\ In (pr p) listed)
    /\ (exists t, pr_createdAt (pr p) = Some t
                  /\ T - GitHubDataFetcher.thirtyDays <= t)
    /\ (forall st0,
           GitHubDataFetcher.getActionableComments w (owner r) (name r)
             (pr_number (pr p)) st0
           = (Returns (actionableComments p), st0)).
Proof.
  intros Hclock Hrun r p Hr Hp.
  apply fetchAllDataFrom_returns in Hrun as (-> & _).
  unfold Denotation.snapshotOf in Hr; simpl in Hr.
  apply repositoryResults_origin in Hr as (i & repo & Hi & _ & Hr).
  apply repositoryResult_shape in Hr as (-> & -> & listed & Hlisted & Hprs).
  rewrite Hprs in Hp. apply summariesOf_origin in Hp as [Hp Hcs].
  apply filter_In in Hp as [Hin Hrecent].
  split; [eauto | split].
  - unfold date_ge in Hrecent.
    destruct (pr_createdAt (pr p)) as [t|]; [| discriminate].
    exists t. split; [reflexivity |].
    apply Z.leb_le in Hrecent.
    assert (T <= clock w i) by (apply Hclock; lia). lia.
  - intros st0. rewrite getActionableComments_denotes. now rewrite Hcs.
Qed.

Lemma snapshot_pull_requests_are_recent_witness :
  (forall k, (readings Demo.fresh <= k)%nat -> Demo.t0 <= clock Demo.world k)
  /\ exists allData st' r p t,
       GitHubDataFetcher.fetchAllDataFrom Demo.world GitHubDataFetcher.reposToMonitor
         Demo.fresh = (Returns allData, st')
       /\ In r (repositories allData) /\ In p (pullRequests r)
       /\ pr_createdAt (pr p) = Some t
       /\ Demo.t0 - GitHubDataFetcher.thirtyDays <= t.
Proof.
  assert (Hclock : forall k, (readings Demo.fresh <= k)%nat ->
                             Demo.t0 <= clock Demo.world k).
  { intros k _. cbv [clock Demo.world]. lia. }
  split; [exact Hclock |].
  pose (run := GitHubDataFetcher.fetchAllDataFrom Demo.world
                 GitHubDataFetcher.reposToMonitor Demo.fresh).
  pose (allData := Denotation.snapshotOf Demo.world 0 GitHubDataFetcher.reposToMonitor).
  assert (Hrun : run = (Returns allData, snd run)) by (vm_compute; reflexivity).
  destruct (repositories allData) as [|r rest] eqn:Erepos;
    [vm_compute in Erepos; discriminate Erepos |].
  destruct (pullRequests r) as [|p prs] eqn:Eprs.
  { exfalso. assert (E : match repositories allData with
                         | r0 :: _ => pullRequests r0
                         | [] => []
                         end = []) by (rewrite Erepos; exact Eprs).
    vm_compute in E. discriminate E. }
  assert (Hr : In r (repositories allData)) by (rewrite Erepos; now left).
  assert (Hp : In p (pullRequests r)) by (rewrite Eprs; now left).
  destruct (snapshot_pull_requests_are_recent Demo.world _ _ _ Demo.t0 allData
              Hclock Hrun r p Hr Hp) as (_ & (t & Ht & Hle) & _).
  exists allData, (snd run), r, p, t. repeat split; assumption.
Defined.

(** ** The scheduler, continued *)

Section SchedulerMore.
Import GitHubDataFetcher.
Variable w : World.

Lemma scheduledCheck_cases st :
  let now := clock w (readings st) in
  let now' := clock w (S (readings st)) in
  scheduledCheck w st
  = if includes workdays (getDay w now') && (startHour <=? getHours w now')
       && (getHours w now' <? endHour)
       && (Z.rem (getHours w now) 3 =? 0) && (getMinutes w now =? 0)
    then runFetch w (advance 2 st)
    else (Returns false, advance 2 st).
Proof.
  unfold scheduledCheck, isOfficeHours, bind, Date_now, ret. simpl.
  replace (mkState (S (S (readings st))) (prData st) (lastUpdateInfo st))
    with (advance 2 st) by (unfold advance; f_equal; lia).
  match goal with
  | |- context [if ?b then _ else _] => destruct b; reflexivity
  end.
Qed.

Lemma initialFetch_cases st :
  let now := clock w (readings st) in
  initialFetch w st
  = if includes workdays (getDay w now) && (startHour <=? getHours w now)
       && (getHours w now <? endHour)
    then runFetch w (tick st)
    else (Returns false, tick st).
Proof.
  unfold initialFetch, isOfficeHours, bind, Date_now, ret.
  cbv beta iota zeta. fold (tick st).
  match goal with
  | |- context [if ?b then _ else _] => destruct b; reflexivity
  end.
Qed.

End SchedulerMore.

(** X11.  A refresh that fails does not take the scheduler down: the
    callback of the timer and the fetch at start-up return in every state,
    also when [fetchAllData] throws, because the rejection is caught and
    only logged. *)
Theorem scheduler_swallows_refresh_failures (w : World) :
  neverThrows (GitHubDataFetcher.scheduledCheck w)
  /\ neverThrows (GitHubDataFetcher.initialFetch w)
  /\ (forall st e st',
         GitHubDataFetcher.fetchAllData w st = (Throws e, st') ->
         GitHubDataFetcher.runFetch w st = (Returns true, st')).
Proof.
  split; [| split].
  - intros st. rewrite scheduledCheck_cases. cbv zeta.
    match goal with
    | |- context [if ?b then _ else _] => destruct b
    end.
    + destruct (runFetch_returns w (advance 2 st)) as (st' & ->). eauto.
    + eauto.
  - intros st. rewrite initialFetch_cases. cbv zeta.
    match goal with
    | |- context [if ?b then _ else _] => destruct b
    end.
    + destruct (runFetch_returns w (tick st)) as (st' & ->). eauto.
    + eauto.
  - intros st e st' H.
    unfold GitHubDataFetcher.runFetch, tryCatch, bind. now rewrite H.
Qed.

Lemma scheduler_swallows_refresh_failures_witness :
  exists st',
    GitHubDataFetcher.fetchAllData Demo.world Demo.metadataReadOnly
    = (Throws (SystemError lastUpdateFile), st')
    /\ GitHubDataFetcher.runFetch Demo.world Demo.metadataReadOnly
       = (Returns true, st').
Proof.
  destruct (scheduler_swallows_refresh_failures Demo.world) as (_ & _ & Hcatch).
  pose (run := GitHubDataFetcher.fetchAllData Demo.world Demo.metadataReadOnly).
  assert (Hrun : run = (Throws (SystemError lastUpdateFile), snd run))
    by (vm_compute; reflexivity).
  exists (snd run). split; [exact Hrun | exact (Hcatch _ _ _ Hrun)].
Defined.





Lemma scheduler_returns_initial (w : World) (st : state) :
  exists b st', GitHubDataFetcher.initialFetch w st = (Returns b, st').
Proof.
  rewrite initialFetch_cases. cbv zeta.
  match goal with
  | |- context [if ?b then _ else _] => destruct b
  end.
  - destruct (runFetch_returns w (tick st)) as (st' & ->). eauto.
  - eauto.
Qed.

(** ** The command line *)

Lemma includesFlag_iff (args : list jsstring) (flag : jsstring) :
  CommandLine.includesFlag args flag = true <-> In flag args.
Proof.
  unfold CommandLine.includesFlag. rewrite existsb_exists. split.
  - intros (a & Hin & E). apply jsstring_eqb_eq in E. now subst.
  - intros Hin. exists flag. split; [exact Hin | now apply jsstring_eqb_eq].
Qed.

(** X14.  Run with [--fetch-now], the program exits with status 0 exactly
    when both cache files could be written and with status 1 otherwise;
    what [gh] answered, or that it answered nothing, has no part in the
    status.  Run without the flag it does not exit. *)
Theorem fetch_now_exit_status (w : World) (args : list jsstring) (st : state) :
  (In (js "--fetch-now") args ->
   exists st',
     CommandLine.main w args st
     = (Returns (CommandLine.Exited
                   (if writable (prData st) && writable (lastUpdateInfo st)
                    then 0 else 1)), st'))
  /\ (~ In (js "--fetch-now") args ->
      exists st', CommandLine.main w args st = (Returns CommandLine.Running, st')).
Proof.
  unfold CommandLine.main. split; intros Hflag.
  - apply includesFlag_iff in Hflag. rewrite Hflag.
    unfold tryCatch, bind, GitHubDataFetcher.fetchAllData.
    rewrite fetchAllDataFrom_cases. cbv zeta.
    destruct (writable (prData st)); simpl;
      [| unfold ret; eexists; reflexivity].
    destruct (writable (lastUpdateInfo st)); simpl;
      unfold ret; eexists; reflexivity.
  - destruct (CommandLine.includesFlag args (js "--fetch-now")) eqn:E.
    + apply includesFlag_iff in E. contradiction.
    + unfold bind.
      destruct (scheduler_returns_initial w st) as (b & st' & ->).
      unfold ret. eexists; reflexivity.
Qed.

Lemma fetch_now_exit_status_witness :
  (exists st',
      CommandLine.main Scenarios.githubDown [js "--fetch-now"] Demo.fresh
      = (Returns (CommandLine.Exited 0), st'))
  /\ (exists st',
         CommandLine.main Demo.world [js "--fetch-now"] Demo.metadataReadOnly
         = (Returns (CommandLine.Exited 1), st'))
  /\ (exists st',
         CommandLine.main Demo.world [] Demo.fresh
         = (Returns CommandLine.Running, st')).
Proof.
  destruct (fetch_now_exit_status Scenarios.githubDown [js "--fetch-now"] Demo.fresh)
    as [Hzero _].
  destruct (fetch_now_exit_status Demo.world [js "--fetch-now"] Demo.metadataReadOnly)
    as [Hone _].
  destruct (fetch_now_exit_status Demo.world [] Demo.fresh) as [_ Hrunning].
  split; [exact (Hzero (or_introl eq_refl)) |].
  split; [exact (Hone (or_introl eq_refl)) |].
  apply Hrunning. intros [].
Defined.

(** ** github-server.js: [analyzePRDiff] *)

Section DiffFacts.
Import LinePattern GithubServer.

Lemma split_pieces_free (sep : N) (s : jsstring) :
  Forall (fun piece => ~ In sep piece) (split sep s).
Proof.
  induction s as [|x s IH]; simpl.
  - constructor; [intros [] | constructor].
  - destruct (N.eqb_spec x sep) as [-> | Hne].
    + constructor; [intros [] | exact IH].
    + destruct (split sep s) as [|piece pieces]; inversion IH; subst.
      * constructor; [| constructor]. intros [E | []]. congruence.
      * constructor; [| assumption]. intros [E | Hin]; [congruence | contradiction].
Qed.

Lemma In_skipn {A} (x : A) (n : nat) (l : list A) : In x (skipn n l) -> In x l.
Proof.
  revert l. induction n as [|n IH]; intros [|y l]; simpl; auto.
Qed.

Lemma startsWith_needs_head (c : N) (cs input : jsstring) :
  ~ In c input -> RegExp.startsWith input (c :: cs) = false.
Proof.
  destruct input as [|x input]; simpl; [reflexivity |].
  intros Hnot. destruct (N.eqb_spec c x) as [-> | _]; [| reflexivity].
  exfalso. apply Hnot. now left.
Qed.

Lemma ends_Str_absent (c : N) (cs input : jsstring) (i : nat) :
  ~ In c input -> ends (Str (c :: cs)) input i = [].
Proof.
  intros Hnot. simpl.
  rewrite startsWith_needs_head; [reflexivity |].
  intros H. apply Hnot. eapply In_skipn, H.
Qed.

Lemma flat_map_nil {A B} (f : A -> list B) (l : list A) :
  (forall x, f x = []) -> flat_map f l = [].
Proof.
  intros H. induction l as [|x l IH]; simpl; [reflexivity |].
  now rewrite H, IH.
Qed.

Lemma test_false (p : pattern) (input : jsstring) :
  (forall i, ends p input i = []) -> test p input = false.
Proof.
  intros H. unfold test.
  apply not_true_is_false. intros E.
  apply existsb_exists in E as (i & _ & E).
  unfold matchesAt in E. rewrite H in E. discriminate E.
Qed.

(** The two patterns that contain [\n] match no text free of line feeds. *)
Lemma importGrouping_needs_newline (input : jsstring) :
  ~ In 10%N input -> test (rf_pattern importGrouping) input = false.
Proof.
  intros Hnot. apply test_false. intros i.
  cbn [importGrouping rf_pattern sequence ends].
  apply flat_map_nil. intros j. apply flat_map_nil. intros k.
  change (flat_map
            (fun x => ends (Cat (Star isNotLineTerminator) (Str (js "import"))) input x)
            (ends (Str newline) input k) = []).
  unfold newline. now rewrite ends_Str_absent.
Qed.

Lemma dataclassConfig_needs_newline (input : jsstring) :
  ~ In 10%N input -> test (rf_pattern dataclassConfig) input = false.
Proof.
  intros Hnot. apply test_false. intros i.
  cbn [dataclassConfig rf_pattern sequence ends].
  apply flat_map_nil. intros j. apply flat_map_nil. intros k.
  change (flat_map
            (fun x =>
               ends (Cat (Str (js "class"))
                       (Cat (Star isNotLineTerminator) (Str (js "Config")))) input x)
            (ends (Str newline) input k) = []).
  unfold newline. now rewrite ends_Str_absent.
Qed.

Variables repoName prNumber : jsstring.

Lemma fold_refactorings (index : nat) (cleanLine : jsstring)
    (table : list Refactoring) (acc : list Issue) :
  fold_left
    (fun issues r =>
       if test (rf_pattern r) cleanLine
       then issues ++ [issueFor repoName prNumber index cleanLine r]
       else issues)
    table acc
  = acc ++ flat_map
             (fun r =>
                if test (rf_pattern r) cleanLine
                then [issueFor repoName prNumber index cleanLine r] else [])
             table.
Proof.
  revert acc. induction table as [|r table IH]; intros acc; simpl.
  - now rewrite app_nil_r.
  - rewrite IH. destruct (test (rf_pattern r) cleanLine); simpl.
    + now rewrite <- app_assoc.
    + reflexivity.
Qed.

Lemma forEachFrom_issues (index : nat) (lines : list jsstring) (acc : list Issue) :
  forEachFrom index lines
    (fun issues line index =>
       if negb (RegExp.startsWith line (js "+")) then issues
       else
         fold_left
           (fun issues r =>
              if test (rf_pattern r) (skipn 1 line)
              then issues ++ [issueFor repoName prNumber index (skipn 1 line) r]
              else issues)
           refactoringPatterns issues)
    acc
  = acc ++ issuesFrom repoName prNumber index lines.
Proof.
  revert index acc. induction lines as [|line lines IH]; intros index acc.
  - simpl. now rewrite app_nil_r.
  - cbn [forEachFrom issuesFrom]. rewrite IH. unfold issuesOfLine.
    destruct (RegExp.startsWith line (js "+")); cbn [negb].
    + now rewrite fold_refactorings, <- app_assoc.
    + reflexivity.
Qed.

Lemma analyzePRDiff_denotes (diff : jsstring) :
  analyzePRDiff diff repoName prNumber
  = issuesFrom repoName prNumber 0 (split 10 diff).
Proof.
  unfold analyzePRDiff. cbv zeta. now rewrite forEachFrom_issues.
Qed.

Lemma In_issuesOfLine (index : nat) (line : jsstring) (issue : Issue) :
  In issue (issuesOfLine repoName prNumber index line)
  <-> RegExp.startsWith line (js "+") = true
      /\ exists r, In r refactoringPatterns
                   /\ test (rf_pattern r) (skipn 1 line) = true
                   /\ issue = issueFor repoName prNumber index (skipn 1 line) r.
Proof.
  unfold issuesOfLine.
  destruct (RegExp.startsWith line (js "+")).
  - rewrite in_flat_map. split.
    + intros (r & Hr & Hin).
      destruct (test (rf_pattern r) (skipn 1 line)) eqn:E; [| contradiction].
      destruct Hin as [<- | []]. split; [reflexivity | eauto].
    + intros (_ & r & Hr & Ht & ->). exists r. split; [exact Hr |].
      rewrite Ht. now left.
  - split; [contradiction | intros [H _]; discriminate H].
Qed.

Lemma In_issuesFrom (index : nat) (lines : list jsstring) (issue : Issue) :
  In issue (issuesFrom repoName prNumber index lines)
  <-> exists i line,
        nth_error lines i = Some line
        /\ In issue (issuesOfLine repoName prNumber (index + i) line).
Proof.
  revert index. induction lines as [|l lines IH]; intros index; simpl.
  - split; [contradiction | intros ([|i] & line & H & _); discriminate H].
  - rewrite in_app_iff, IH. split.
    + intros [H | (i & line & Hnth & H)].
      * exists 0%nat, l. rewrite Nat.add_0_r. now split.
      * exists (S i), line. rewrite Nat.add_succ_r. now split.
    + intros ([|i] & line & Hnth & H); simpl in Hnth.
      * injection Hnth as ->. rewrite Nat.add_0_r in H. now left.
      * right. exists i, line. rewrite Nat.add_succ_r in H. now split.
Qed.

Lemma issuesOfLine_line (index : nat) (line : jsstring) (issue : Issue) :
  In issue (issuesOfLine repoName prNumber index line) -> i_line issue = (index + 1)%nat.
Proof.
  intros H. apply In_issuesOfLine in H as (_ & r & _ & _ & ->). reflexivity.
Qed.

Lemma issuesFrom_lines_above (index : nat) (lines : list jsstring) (n : nat) :
  In n (map i_line (issuesFrom repoName prNumber index lines)) -> (index + 1 <= n)%nat.
Proof.
  rewrite in_map_iff. intros (issue & <- & H).
  apply In_issuesFrom in H as (i & line & _ & H).
  apply issuesOfLine_line in H. lia.
Qed.

Lemma ascending_app (xs ys : list nat) :
  ascending xs -> ascending ys ->
  (forall x y, In x xs -> In y ys -> (x <= y)%nat) ->
  ascending (xs ++ ys).
Proof.
  induction xs as [|x xs IH]; simpl; intros Hxs Hys Hle; [exact Hys |].
  destruct Hxs as [Hx Hxs]. split.
  - intros m Hm. apply in_app_iff in Hm as [Hm | Hm]; [now apply Hx |].
    apply Hle; [now left | exact Hm].
  - apply IH; auto.
Qed.

Lemma ascending_constant (n : nat) (xs : list nat) :
  (forall x, In x xs -> x = n) -> ascending xs.
Proof.
  induction xs as [|x xs IH]; simpl; intros H; [exact I |].
  split.
  - intros m Hm. rewrite (H x (or_introl eq_refl)), (H m (or_intror Hm)). lia.
  - apply IH. intros y Hy. apply H. now right.
Qed.

Lemma issuesFrom_ascending (index : nat) (lines : list jsstring) :
  ascending (map i_line (issuesFrom repoName prNumber index lines)).
Proof.
  revert index. induction lines as [|l lines IH]; intros index; simpl; [exact I |].
  rewrite map_app. apply ascending_app.
  - apply (ascending_constant (index + 1)). intros x Hx.
    apply in_map_iff in Hx as (issue & <- & H). now apply issuesOfLine_line in H.
  - apply IH.
  - intros x y Hx Hy.
    apply in_map_iff in Hx as (issue & <- & H). apply issuesOfLine_line in H.
    apply issuesFrom_lines_above in Hy. lia.
Qed.

Lemma startsWith_app (cs rest : jsstring) : RegExp.startsWith (cs ++ rest) cs = true.
Proof.
  induction cs as [|c cs IH]; simpl.
  - now destruct rest.
  - now rewrite N.eqb_refl, IH.
Qed.

Lemma test_Str_inside (cs before after : jsstring) :
  test (Str cs) (before ++ cs ++ after) = true.
Proof.
  unfold test. apply existsb_exists.
  exists (List.length before). split.
  - apply in_seq. rewrite !length_app. lia.
  - unfold matchesAt. cbn [ends].
    rewrite skipn_app, skipn_all, Nat.sub_diag. cbn [skipn app].
    now rewrite startsWith_app.
Qed.

End DiffFacts.

(** X15.  Two of the eight patterns of [analyzePRDiff] can never fire: the
    patterns for import grouping and for dataclass configs contain a line
    feed, and each is tried on one line of the diff at a time.  No issue
    ever carries either of their messages. *)
Theorem multi_line_patterns_never_fire (diff repoName prNumber : jsstring) :
  (forall line,
      In line (split 10 diff) ->
      LinePattern.test (GithubServer.rf_pattern GithubServer.importGrouping)
        (skipn 1 line) = false
      /\ LinePattern.test (GithubServer.rf_pattern GithubServer.dataclassConfig)
           (skipn 1 line) = false)
  /\ (forall issue,
         In issue (GithubServer.analyzePRDiff diff repoName prNumber) ->
         GithubServer.i_message issue
         <> GithubServer.rf_message GithubServer.importGrouping
         /\ GithubServer.i_message issue
            <> GithubServer.rf_message GithubServer.dataclassConfig).
Proof.
  assert (Hdead : forall line,
             In line (split 10 diff) ->
             LinePattern.test (GithubServer.rf_pattern GithubServer.importGrouping)
               (skipn 1 line) = false
             /\ LinePattern.test (GithubServer.rf_pattern GithubServer.dataclassConfig)
                  (skipn 1 line) = false).
  { intros line Hline.
    pose proof (proj1 (Forall_forall _ _) (split_pieces_free 10 diff) line Hline)
      as Hfree.
    assert (Hclean : ~ In 10%N (skipn 1 line))
      by (intros H; apply Hfree; eapply In_skipn, H).
    split; [now apply importGrouping_needs_newline
           | now apply dataclassConfig_needs_newline]. }
  split; [exact Hdead |].
  intros issue Hissue. rewrite analyzePRDiff_denotes in Hissue.
  apply In_issuesFrom in Hissue as (i & line & Hnth & Hissue).
  apply nth_error_In in Hnth. destruct (Hdead line Hnth) as [Himport Hdata].
  apply In_issuesOfLine in Hissue as (_ & r & Hr & Ht & ->).
  unfold GithubServer.issueFor; simpl.
  unfold GithubServer.refactoringPatterns in Hr. simpl in Hr.
  destruct Hr as [<- | [<- | [<- | [<- | [<- | [<- | [<- | [<- | []]]]]]]]];
    try congruence;
    split; intros E; vm_compute in E; discriminate E.
Qed.

Lemma multi_line_patterns_never_fire_witness :
  In (js "+import os") (split 10 (js "+import os"))
  /\ LinePattern.test (GithubServer.rf_pattern GithubServer.importGrouping)
       (skipn 1 (js "+import os")) = false.
Proof.
  assert (Hin : In (js "+import os") (split 10 (js "+import os")))
    by (vm_compute; now left).
  destruct (multi_line_patterns_never_fire (js "+import os") (js "aot-base") (js "7"))
    as [Hdead _].
  split; [exact Hin | exact (proj1 (Hdead _ Hin))].
Defined.

(** X16.  Every issue of [analyzePRDiff] points at an added line of the
    diff: its line number is the 1-based position of a line that starts
    with "+", its snippet is that line without the "+" and trimmed, and its
    severity, type and message are those of a table entry whose pattern
    matches the line; no issue is of high severity.  The issues come in
    the order of the lines, and a diff without added lines has none. *)
Theorem issues_point_at_added_lines (diff repoName prNumber : jsstring) :
  let lines := split 10 diff in
  let issues := GithubServer.analyzePRDiff diff repoName prNumber in
  (forall issue, In issue issues ->
     exists line r,
       (1 <= GithubServer.i_line issue <= List.length lines)%nat
       /\ nth_error lines (GithubServer.i_line issue - 1) = Some line
       /\ RegExp.startsWith line (js "+") = true
       /\ In r GithubServer.refactoringPatterns
       /\ LinePattern.test (GithubServer.rf_pattern r) (skipn 1 line) = true
       /\ issue = GithubServer.issueFor repoName prNumber
                    (GithubServer.i_line issue - 1) (skipn 1 line) r
       /\ GithubServer.i_severity issue <> high)
  /\ ascending (map GithubServer.i_line issues)
  /\ ((forall line, In line lines -> RegExp.startsWith line (js "+") = false) ->
      issues = []).
Proof.
  intros lines issues. unfold issues. rewrite analyzePRDiff_denotes. fold lines.
  split; [| split].
  - intros issue Hissue.
    apply In_issuesFrom in Hissue as (i & line & Hnth & Hissue).
    pose proof (issuesOfLine_line _ _ _ _ _ Hissue) as Hline. simpl in Hline.
    apply In_issuesOfLine in Hissue as (Hplus & r & Hr & Ht & ->).
    simpl. replace (i + 1 - 1)%nat with i by lia.
    exists line, r.
    assert (Hlt : (i < List.length lines)%nat)
      by (apply nth_error_Some; congruence).
    repeat split; try assumption; try lia.
    unfold GithubServer.refactoringPatterns in Hr. simpl in Hr.
    destruct Hr as [<- | [<- | [<- | [<- | [<- | [<- | [<- | [<- | []]]]]]]]];
      discriminate.
  - apply issuesFrom_ascending.
  - intros Hnone. destruct (GithubServer.issuesFrom repoName prNumber 0 lines)
      as [|issue rest] eqn:E; [reflexivity |].
    assert (Hin : In issue (GithubServer.issuesFrom repoName prNumber 0 lines))
      by (rewrite E; now left).
    apply In_issuesFrom in Hin as (i & line & Hnth & Hin).
    apply In_issuesOfLine in Hin as (Hplus & _).
    apply nth_error_In in Hnth. rewrite (Hnone line Hnth) in Hplus.
    discriminate Hplus.
Qed.

Lemma issues_point_at_added_lines_witness :
  exists issue line,
    In issue (GithubServer.analyzePRDiff (js "-a = 1" ++ [10%N] ++ js "+sys.exit(1)")
                (js "aot-base") (js "7"))
    /\ GithubServer.i_line issue = 2%nat
    /\ nth_error (split 10 (js "-a = 1" ++ [10%N] ++ js "+sys.exit(1)"))
         (GithubServer.i_line issue - 1) = Some line
    /\ RegExp.startsWith line (js "+") = true
  /\ GithubServer.analyzePRDiff (js "-a = 1") (js "aot-base") (js "7") = [].
Proof.
  pose (diff := js "-a = 1" ++ [10%N] ++ js "+sys.exit(1)").
  pose (issue := GithubServer.issueFor (js "aot-base") (js "7") 1 (js "sys.exit(1)")
                   GithubServer.sysExit).
  assert (Hin : In issue (GithubServer.analyzePRDiff diff (js "aot-base") (js "7")))
    by (vm_compute; now left).
  destruct (issues_point_at_added_lines diff (js "aot-base") (js "7"))
    as (Hpoint & _ & _).
  destruct (Hpoint issue Hin) as (line & r & _ & Hnth & Hplus & _).
  destruct (issues_point_at_added_lines (js "-a = 1") (js "aot-base") (js "7"))
    as (_ & _ & Hnone).
  exists issue, line. split; [exact Hin |].
  split; [reflexivity | split; [exact Hnth | split; [exact Hplus |]]].
  apply Hnone. intros l Hl. vm_compute in Hl.
  destruct Hl as [<- | []]. reflexivity.
Defined.

(** X17.  The three patterns that are plain text always fire: an added
    line that contains "sys.exit(1)", "os.environ.get(" or "# TODO:" is
    reported, under its line number, with the message of that pattern. *)
Theorem literal_patterns_always_fire (diff repoName prNumber : jsstring)
    (index : nat) (before after cs : jsstring) (r : GithubServer.Refactoring) :
  In r [GithubServer.sysExit; GithubServer.environGet; GithubServer.todoComment] ->
  GithubServer.rf_pattern r = LinePattern.Str cs ->
  nth_error (split 10 diff) index = Some (js "+" ++ before ++ cs ++ after) ->
  In (GithubServer.issueFor repoName prNumber index (before ++ cs ++ after) r)
    (GithubServer.analyzePRDiff diff repoName prNumber).
Proof.
  intros Hr Hpattern Hnth. rewrite analyzePRDiff_denotes.
  apply In_issuesFrom. exists index, (js "+" ++ before ++ cs ++ after).
  split; [exact Hnth |]. apply In_issuesOfLine.
  split; [apply startsWith_app |]. exists r.
  change (skipn 1 (js "+" ++ before ++ cs ++ after)) with (before ++ cs ++ after).
  split; [| split; [| reflexivity]].
  - unfold GithubServer.refactoringPatterns. simpl in Hr |- *.
    destruct Hr as [<- | [<- | [<- | []]]]; tauto.
  - rewrite Hpattern. apply test_Str_inside.
Qed.

Lemma literal_patterns_always_fire_witness :
  In (GithubServer.issueFor (js "aot-base") (js "7") 0
        (js "  " ++ js "sys.exit(1)" ++ js " # bye") GithubServer.sysExit)
    (GithubServer.analyzePRDiff (js "+  sys.exit(1) # bye") (js "aot-base") (js "7")).
Proof.
  apply (literal_patterns_always_fire (js "+  sys.exit(1) # bye") (js "aot-base")
           (js "7") 0 (js "  ") (js " # bye") (js "sys.exit(1)") GithubServer.sysExit).
  - now left.
  - reflexivity.
  - reflexivity.
Defined.

(** ** github-server.js: the route of the cached data *)

(** X18.  The route [/api/cached-data] never answers 500.  It answers
    "no cached data" when the snapshot file is missing or holds text that
    is not JSON, whatever the metadata file holds; when the snapshot file
    holds a JSON object it answers with that object and with what
    [getLastUpdateInfo] returns, [null] included. *)
Theorem cached_data_route_never_fails (w : World) (numberIsZero : jsstring -> bool)
    (st : state) :
  (exists reply,
      GithubServer.cachedDataRoute w numberIsZero st = (Returns reply, st)
      /\ forall e, reply <> GithubServer.CachedDataError e)
  /\ (prData st = NoEntry ->
      GithubServer.cachedDataRoute w numberIsZero st
      = (Returns GithubServer.CachedDataMissing, st))
  /\ (forall text r wr,
         prData st = RegularFile text r wr -> JSON_parse w text = None ->
         GithubServer.cachedDataRoute w numberIsZero st
         = (Returns GithubServer.CachedDataMissing, st))
  /\ (forall text wr members lastUpdate,
         prData st = RegularFile text true wr ->
         JSON_parse w text = Some (JObject members) ->
         GitHubDataFetcher.getLastUpdateInfo w st = (Returns lastUpdate, st) ->
         GithubServer.cachedDataRoute w numberIsZero st
         = (Returns (GithubServer.CachedDataFound (JObject members) lastUpdate), st)).
Proof.
  unfold GithubServer.cachedDataRoute, tryCatch, bind,
    GitHubDataFetcher.loadCachedData, GitHubDataFetcher.getLastUpdateInfo.
  rewrite !loadJSON_cases. simpl.
  split; [| split; [| split]].
  - match goal with
    | |- context [if ?b then _ else _] => destruct b
    end; eexists; (split; [reflexivity | discriminate]).
  - intros ->. reflexivity.
  - intros text r wr -> ->. destruct r; reflexivity.
  - intros text wr members lastUpdate -> -> H. simpl.
    injection H as <-. reflexivity.
Qed.

Lemma cached_data_route_never_fails_witness :
  GithubServer.cachedDataRoute Demo.world (fun _ => false) Demo.fresh
  = (Returns GithubServer.CachedDataMissing, Demo.fresh)
  /\ GithubServer.cachedDataRoute Demo.world (fun _ => false) Demo.corrupted
     = (Returns GithubServer.CachedDataMissing, Demo.corrupted)
  /\ GithubServer.cachedDataRoute Scenarios.objectHost (fun _ => false) Scenarios.cached
     = (Returns (GithubServer.CachedDataFound (JObject []) (JObject [])),
        Scenarios.cached).
Proof.
  destruct (cached_data_route_never_fails Demo.world (fun _ => false) Demo.fresh)
    as (_ & Hmissing & _).
  destruct (cached_data_route_never_fails Demo.world (fun _ => false) Demo.corrupted)
    as (_ & _ & Hcorrupt & _).
  destruct (cached_data_route_never_fails Scenarios.objectHost (fun _ => false)
              Scenarios.cached) as (_ & _ & _ & Hfound).
  split; [apply Hmissing; reflexivity |].
  split; [apply (Hcorrupt (js "{lastUpdate:") true true); reflexivity |].
  apply (Hfound (js "{lastUpdate:1,repositories:1}") true []); reflexivity.
Defined.

(** ** Whole words *)

Section WordFacts.
Import RegExp.

Variable input : jsstring.
Hypothesis input_words : forallb isWordCharacter input = true.
Hypothesis input_nonempty : input <> [].

Lemma IsWordChar_inside (e : Z) :
  IsWordChar input e = (0 <=? e) && (e <? Z.of_nat (List.length input)).
Proof.
  unfold IsWordChar. destruct (Z.ltb_spec e 0) as [Hneg | Hpos].
  - destruct (Z.leb_spec 0 e); [lia | reflexivity].
  - destruct (Z.leb_spec 0 e); [| lia]. simpl.
    destruct (nth_error input (Z.to_nat e)) as [c|] eqn:E.
    + assert (Hlt : (Z.to_nat e < List.length input)%nat)
        by (apply nth_error_Some; congruence).
      apply nth_error_In in E.
      rewrite (proj1 (forallb_forall _ _) input_words c E).
      symmetry. apply Z.ltb_lt. lia.
    + apply nth_error_None in E. symmetry. apply Z.ltb_ge. lia.
Qed.

Lemma boundary_iff (i : nat) :
  In i (ends WordBoundary input i) <-> i = 0%nat \/ i = List.length input.
Proof.
  assert (Hlen : (0 < List.length input)%nat)
    by (destruct input; [congruence | simpl; lia]).
  cbn [ends]. rewrite !IsWordChar_inside.
  destruct (Z.leb_spec 0 (Z.of_nat i - 1)) as [A | A],
    (Z.ltb_spec (Z.of_nat i - 1) (Z.of_nat (List.length input))) as [B | B],
    (Z.leb_spec 0 (Z.of_nat i)) as [C | C],
    (Z.ltb_spec (Z.of_nat i) (Z.of_nat (List.length input))) as [D | D];
    simpl; split; intros Hx; try lia; try contradiction; try (now left).
Qed.

Lemma ends_WordBoundary_inv (i e : nat) :
  In e (ends WordBoundary input i) -> e = i /\ (i = 0%nat \/ i = List.length input).
Proof.
  intros H. assert (e = i).
  { cbn [ends] in H. destruct (xorb _ _); [| contradiction].
    destruct H as [<- | []]. reflexivity. }
  subst e. split; [reflexivity | now apply boundary_iff].
Qed.

Lemma ends_alternatives (alts : list string) (i e : nat) :
  alts <> [] ->
  (In e (ends (alternatives alts) input i)
   <-> exists a, In a alts /\ startsWith (skipn i input) (js a) = true
                 /\ e = (i + List.length (js a))%nat).
Proof.
  induction alts as [|a alts IH]; intros Hne; [congruence |].
  destruct alts as [|b alts].
  - cbn [alternatives ends]. split.
    + destruct (startsWith (skipn i input) (js a)) eqn:E; [| contradiction].
      intros [<- | []]. exists a. repeat split; [now left | exact E].
    + intros (a' & [<- | []] & -> & ->). now left.
  - change (alternatives (a :: b :: alts))
      with (Disj (Chars (js a)) (alternatives (b :: alts))).
    cbn [ends]. rewrite in_app_iff, IH by discriminate. split.
    + intros [H | (a' & Hin & Hs & He)].
      * destruct (startsWith (skipn i input) (js a)) eqn:E; [| contradiction].
        destruct H as [<- | []]. exists a. repeat split; [now left | exact E].
      * exists a'. repeat split; [now right | exact Hs | exact He].
    + intros (a' & [<- | Hin] & Hs & ->).
      * left. rewrite Hs. now left.
      * right. exists a'. now repeat split.
Qed.

Lemma startsWith_length (s cs : jsstring) :
  startsWith s cs = true -> (List.length cs <= List.length s)%nat.
Proof.
  revert s. induction cs as [|c cs IH]; intros [|x s]; simpl; try lia;
    try discriminate.
  intros H. apply andb_true_iff in H as [_ H]. apply IH in H. lia.
Qed.

Lemma startsWith_whole (s cs : jsstring) :
  startsWith s cs = true -> List.length cs = List.length s -> s = cs.
Proof.
  revert s. induction cs as [|c cs IH]; intros [|x s]; simpl; try discriminate;
    try reflexivity.
  intros H Hlen. apply andb_true_iff in H as [Hx H].
  apply N.eqb_eq in Hx. f_equal; [congruence | apply IH; [exact H | lia]].
Qed.

Lemma startsWith_refl (s : jsstring) : startsWith s s = true.
Proof.
  induction s as [|x s IH]; simpl; [reflexivity |].
  now rewrite N.eqb_refl, IH.
Qed.

(** On a single word, [/\b(a|b|...)\b/] matches exactly the alternatives. *)
Lemma words_on_a_word (alts : list string) :
  alts <> [] -> Forall (fun a => js a <> []) alts ->
  (test (words alts) input = true <-> In input (map js alts)).
Proof.
  intros Hne Hall.
  assert (Hlen : (0 < List.length input)%nat)
    by (destruct input; [congruence | simpl; lia]).
  unfold test. rewrite existsb_exists. split.
  - intros (i & _ & Hm). unfold matchesAt in Hm.
    destruct (ends (words alts) input i) as [|e rest] eqn:E; [discriminate |].
    assert (He : In e (ends (words alts) input i)) by (rewrite E; now left).
    unfold words in He. cbn [ends] in He.
    apply in_flat_map in He as (i' & Hi' & He).
    apply ends_WordBoundary_inv in Hi' as [-> Hi].
    apply in_flat_map in He as (e1 & He1 & He).
    apply ends_WordBoundary_inv in He as [_ He1b].
    apply ends_alternatives in He1 as (a & Ha & Hs & ->); [| exact Hne].
    pose proof (proj1 (Forall_forall _ _) Hall a Ha) as Hane.
    assert (Hpos : (0 < List.length (js a))%nat)
      by (destruct (js a) eqn:Eja; [congruence | simpl; lia]).
    pose proof (startsWith_length _ _ Hs) as Hle. rewrite length_skipn in Hle.
    apply in_map_iff. exists a. split; [| exact Ha].
    destruct Hi as [-> | ->]; [| lia].
    simpl in Hs, He1b. symmetry. apply startsWith_whole; [exact Hs | lia].
  - intros Hin. apply in_map_iff in Hin as (a & Ha & Hin).
    exists 0%nat. split; [apply in_seq; lia |].
    unfold matchesAt.
    assert (He : In (List.length input) (ends (words alts) input 0)).
    { unfold words. cbn [ends]. apply in_flat_map. exists 0%nat.
      split; [apply boundary_iff; now left |].
      apply in_flat_map. exists (List.length input).
      split; [| apply boundary_iff; now right].
      apply ends_alternatives; [exact Hne |].
      exists a. rewrite Ha. simpl. split; [exact Hin | split; [| reflexivity]].
      apply startsWith_refl. }
    destruct (ends (words alts) input 0); [contradiction | reflexivity].
Qed.

Lemma test_single_char_inv (c : N) :
  test (Chars [c]) input = true -> In c input.
Proof.
  unfold test. rewrite existsb_exists. intros (i & _ & Hm).
  unfold matchesAt in Hm. cbn [ends] in Hm.
  destruct (skipn i input) as [|x rest] eqn:E; [discriminate |].
  cbn [startsWith] in Hm.
  destruct (N.eqb_spec c x) as [-> | _]; [| discriminate].
  apply (In_skipn x i). rewrite E. now left.
Qed.

Lemma literals_alternatives (alts : list string) :
  alts <> [] -> literals (alternatives alts) = map js alts.
Proof.
  induction alts as [|a alts IH]; intros Hne; [congruence |].
  destruct alts as [|b alts]; [reflexivity |].
  change (alternatives (a :: b :: alts))
    with (Disj (Chars (js a)) (alternatives (b :: alts))).
  cbn [literals]. rewrite IH by discriminate. reflexivity.
Qed.

Lemma literals_words (alts : list string) :
  alts <> [] -> literals (words alts) = map js alts.
Proof.
  intros Hne. unfold words. cbn [literals app].
  rewrite app_nil_r. now apply literals_alternatives.
Qed.

Lemma tablePattern_on_a_word (r : regex) :
  tablePattern r -> (test r input = true <-> In input (literals r)).
Proof.
  intros [-> | (alts & Hne & Hall & ->)].
  - split.
    + intros H. apply test_single_char_inv in H.
      pose proof (proj1 (forallb_forall _ _) input_words _ H) as Hw.
      discriminate Hw.
    + intros [<- | []]. discriminate input_words.
  - rewrite literals_words by exact Hne. now apply words_on_a_word.
Qed.

Lemma group_on_a_word (group : list regex) :
  Forall tablePattern group ->
  (anyPatternMatches group input = true <-> In input (flat_map literals group)).
Proof.
  induction 1 as [|r group Hr _ IH]; simpl; [split; [discriminate | contradiction] |].
  rewrite in_app_iff, <- IH, <- (tablePattern_on_a_word r Hr).
  destruct (test r input); split; auto.
  intros [H | H]; [discriminate H | exact H].
Qed.

End WordFacts.

Lemma allPatterns_tablePattern : Forall tablePattern allPatterns.
Proof.
  unfold allPatterns, DataFetcherClassifier.highSeverityPatterns,
    DataFetcherClassifier.mediumSeverityPatterns,
    DataFetcherClassifier.lowSeverityPatterns,
    DataFetcherClassifier.questionPatterns,
    DataFetcherClassifier.requestPatterns.
  simpl app.
  repeat (apply Forall_cons;
          [first [ left; reflexivity
                 | right; eexists; split; [| split; [| reflexivity]];
                   [discriminate
                   | repeat (apply Forall_cons; [discriminate |]); apply Forall_nil] ]
          |]).
  apply Forall_nil.
Qed.

Lemma classify_actionable_iff (lower : jsstring -> jsstring) (c : N) (text : jsstring) :
  actionable (DataFetcherClassifier.isCommentActionable lower (Some (c :: text))) = true
  <-> anyPatternMatches allPatterns (lower (c :: text)) = true.
Proof.
  rewrite classify_cascade. cbv zeta.
  assert (Happ : forall g1 g2 body,
             anyPatternMatches (g1 ++ g2) body
             = anyPatternMatches g1 body || anyPatternMatches g2 body).
  { intros g1 g2 body. induction g1 as [|r g1 IH]; simpl; [reflexivity |].
    destruct (RegExp.test r body); [reflexivity | exact IH]. }
  unfold allPatterns. rewrite !Happ.
  repeat match goal with
         | |- context [if ?b then _ else _] => destruct b
         end; simpl; split; congruence.
Qed.

(** X19.  Keywords count as whole words only.  A body that is one word
    (letters, digits and underscores once lower-cased) is actionable if and
    only if, lower-cased, it is one of the keywords of the tables: a
    keyword inside a longer word does not count. *)
Theorem one_word_body_is_a_keyword_or_ignored (lower : jsstring -> jsstring)
    (body : jsstring) :
  body <> [] ->
  lower body <> [] ->
  forallb RegExp.isWordCharacter (lower body) = true ->
  (actionable (DataFetcherClassifier.isCommentActionable lower (Some body)) = true
   <-> In (lower body) keywords).
Proof.
  intros Hbody Hne Hword. destruct body as [|c text]; [congruence |].
  rewrite classify_actionable_iff. unfold keywords.
  apply group_on_a_word; [exact Hword | exact Hne | exact allPatterns_tablePattern].
Qed.

Lemma one_word_body_is_a_keyword_or_ignored_witness :
  actionable (DataFetcherClassifier.isCommentActionable Demo.asciiToLowerCase
                (Some (js "Retesting"))) = false
  /\ ~ In (js "retesting") keywords
  /\ In (js "testing") keywords
  /\ actionable (DataFetcherClassifier.isCommentActionable Demo.asciiToLowerCase
                   (Some (js "TESTING"))) = true.
Proof.
  destruct (one_word_body_is_a_keyword_or_ignored Demo.asciiToLowerCase
              (js "Retesting")) as [Hre _];
    [discriminate | discriminate | reflexivity |].
  destruct (one_word_body_is_a_keyword_or_ignored Demo.asciiToLowerCase
              (js "TESTING")) as [_ Htest];
    [discriminate | discriminate | reflexivity |].
  assert (Hnot : ~ In (js "retesting") keywords).
  { intros H. apply includesFlag_iff in H. vm_compute in H. discriminate H. }
  assert (Hin : In (js "testing") keywords).
  { apply includesFlag_iff. vm_compute. reflexivity. }
  split; [| split; [exact Hnot | split; [exact Hin | exact (Htest Hin)]]].
  destruct (actionable (DataFetcherClassifier.isCommentActionable
                          Demo.asciiToLowerCase (Some (js "Retesting")))) eqn:E;
    [| reflexivity].
  exfalso. exact (Hnot (Hre eq_refl)).
Defined.

(** ** The staleness window, at its edge *)

(** X20.  The 30-day window is closed at its far end: a repository pushed
    exactly 30 days before the clock reading is kept, one pushed a
    millisecond earlier is dropped, and so is one whose [pushedAt] is
    missing or is not a date. *)
Theorem staleness_window_edge (w : World) (repoName : jsstring) (repoData : RepoData)
    (repos : list RepoData) (st : state) :
  gh_repo_view w repoName = Some repoData ->
  let now := clock w (readings st) in
  (forall t,
      repo_pushedAt repoData = Some (Some t) ->
      GitHubDataFetcher.monitorRepository w repoName repos st
      = (Returns (if now - GitHubDataFetcher.thirtyDays <=? t
                  then repos ++ [repoData] else repos), tick st))
  /\ (repo_pushedAt repoData = Some (Some (now - GitHubDataFetcher.thirtyDays)) ->
      GitHubDataFetcher.monitorRepository w repoName repos st
      = (Returns (repos ++ [repoData]), tick st))
  /\ (repo_pushedAt repoData = Some (Some (now - GitHubDataFetcher.thirtyDays - 1)) ->
      GitHubDataFetcher.monitorRepository w repoName repos st
      = (Returns repos, tick st))
  /\ (repo_pushedAt repoData = None \/ repo_pushedAt repoData = Some None ->
      GitHubDataFetcher.monitorRepository w repoName repos st
      = (Returns repos, tick st)).
Proof.
  intros Hview now.
  assert (Hgen : forall t,
             repo_pushedAt repoData = Some (Some t) ->
             GitHubDataFetcher.monitorRepository w repoName repos st
             = (Returns (if now - GitHubDataFetcher.thirtyDays <=? t
                         then repos ++ [repoData] else repos), tick st)).
  { intros t Ht. rewrite monitorRepository_denotes, Hview.
    unfold Denotation.pushedSince. rewrite Ht. unfold date_ge. fold now.
    destruct (now - GitHubDataFetcher.thirtyDays <=? t);
      [reflexivity | now rewrite app_nil_r]. }
  split; [exact Hgen | split; [| split]].
  - intros Ht. rewrite (Hgen _ Ht). now rewrite Z.leb_refl.
  - intros Ht. rewrite (Hgen _ Ht).
    destruct (Z.leb_spec (now - GitHubDataFetcher.thirtyDays)
                (now - GitHubDataFetcher.thirtyDays - 1)); [lia | reflexivity].
  - intros Ht. rewrite monitorRepository_denotes, Hview.
    unfold Denotation.pushedSince.
    destruct Ht as [-> | ->]; simpl; now rewrite app_nil_r.
Qed.

Lemma staleness_window_edge_witness :
  GitHubDataFetcher.monitorRepository Demo.worldWithStaleRepo
    (js "ppaul-h-aot/MRToolGH") [] Demo.fresh
  = (Returns [], tick Demo.fresh)
  /\ GitHubDataFetcher.monitorRepository Scenarios.noPushDate
       (js "h1-aot/aot-base") [] Demo.fresh
     = (Returns [], tick Demo.fresh)
  /\ GitHubDataFetcher.monitorRepository Scenarios.onTheEdge
       (js "h1-aot/aot-base") [] Demo.fresh
     = (Returns [Scenarios.edgeRepo 0], tick Demo.fresh)
  /\ GitHubDataFetcher.monitorRepository Scenarios.pastTheEdge
       (js "h1-aot/aot-base") [] Demo.fresh
     = (Returns [], tick Demo.fresh).
Proof.
  destruct (staleness_window_edge Demo.worldWithStaleRepo (js "ppaul-h-aot/MRToolGH")
              Demo.staleRepo [] Demo.fresh eq_refl) as (Hgen & _).
  destruct (staleness_window_edge Scenarios.noPushDate (js "h1-aot/aot-base")
              Scenarios.undatedRepo [] Demo.fresh eq_refl) as (_ & _ & _ & Hnone).
  destruct (staleness_window_edge Scenarios.onTheEdge (js "h1-aot/aot-base")
              (Scenarios.edgeRepo 0) [] Demo.fresh eq_refl) as (_ & Hedge & _).
  destruct (staleness_window_edge Scenarios.pastTheEdge (js "h1-aot/aot-base")
              (Scenarios.edgeRepo 1) [] Demo.fresh eq_refl) as (_ & _ & Hpast & _).
  split; [exact (Hgen _ eq_refl) |].
  split; [apply Hnone; now left |].
  split; [exact (Hedge eq_refl) | exact (Hpast eq_refl)].
Defined.

(** ** Text added after a comment *)

Section ExtensionFacts.
Import RegExp.

Variables input ext : jsstring.
Hypothesis ext_apart :
  match ext with
  | [] => True
  | sep :: _ => isWordCharacter sep = false
  end.

Lemma IsWordChar_extended (e : Z) :
  e <= Z.of_nat (List.length input) ->
  IsWordChar (input ++ ext) e = IsWordChar input e.
Proof.
  intros He. unfold IsWordChar. destruct (e <? 0) eqn:Eneg; [reflexivity |].
  apply Z.ltb_ge in Eneg.
  destruct (Z.eq_dec e (Z.of_nat (List.length input))) as [-> | Hne].
  - rewrite Nat2Z.id, nth_error_app2, Nat.sub_diag by lia.
    rewrite (proj2 (nth_error_None input (List.length input))) by lia.
    destruct ext as [|sep more]; simpl; [reflexivity | exact ext_apart].
  - now rewrite nth_error_app1 by lia.
Qed.

Lemma startsWith_extended (s cs : jsstring) :
  startsWith s cs = true -> startsWith (s ++ ext) cs = true.
Proof.
  revert s. induction cs as [|c cs IH]; intros [|x s]; simpl; try discriminate.
  - intros _. now destruct ext.
  - reflexivity.
  - intros H. apply andb_true_iff in H as [-> H]. simpl. now apply IH.
Qed.

Lemma ends_extended (r : regex) (i e : nat) :
  (i <= List.length input)%nat ->
  In e (ends r input i) ->
  In e (ends r (input ++ ext) i) /\ (e <= List.length input)%nat.
Proof.
  revert i e. induction r as [cs | r1 IH1 r2 IH2 | r1 IH1 r2 IH2 | r IH |];
    intros i e Hi He; cbn [ends] in He |- *.
  - destruct (startsWith (skipn i input) cs) eqn:E; [| contradiction].
    destruct He as [<- | []].
    pose proof (startsWith_length _ _ E) as Hlen. rewrite length_skipn in Hlen.
    rewrite skipn_app. replace (i - List.length input)%nat with 0%nat by lia.
    cbn [skipn]. rewrite (startsWith_extended _ _ E).
    split; [now left | lia].
  - rewrite in_app_iff in He |- *. destruct He as [He | He].
    + destruct (IH1 i e Hi He). auto.
    + destruct (IH2 i e Hi He). auto.
  - apply in_flat_map in He as (e1 & He1 & He).
    destruct (IH1 i e1 Hi He1) as [He1' Hle1].
    destruct (IH2 e1 e Hle1 He) as [He' Hle].
    split; [| exact Hle]. apply in_flat_map. eauto.
  - now apply IH.
  - rewrite !IsWordChar_extended by lia.
    destruct (xorb _ _); [| contradiction].
    destruct He as [<- | []]. split; [now left | exact Hi].
Qed.

Lemma test_extended (r : regex) :
  test r input = true -> test r (input ++ ext) = true.
Proof.
  unfold test. rewrite !existsb_exists. intros (i & Hi & Hm).
  apply in_seq in Hi. exists i. split.
  - apply in_seq. rewrite length_app. lia.
  - unfold matchesAt in *.
    destruct (ends r input i) as [|e rest] eqn:E; [discriminate |].
    assert (He : In e (ends r input i)) by (rewrite E; now left).
    apply ends_extended in He as [He _]; [| lia].
    destruct (ends r (input ++ ext) i); [contradiction | reflexivity].
Qed.

Lemma anyPatternMatches_extended (group : list regex) :
  anyPatternMatches group input = true ->
  anyPatternMatches group (input ++ ext) = true.
Proof.
  induction group as [|r group IH]; simpl; [discriminate |].
  destruct (test r input) eqn:E.
  - now rewrite (test_extended r E).
  - intros H. rewrite (IH H). now destruct (test r (input ++ ext)).
Qed.

End ExtensionFacts.

Lemma asciiLower_keeps_non_words (c : N) :
  RegExp.isWordCharacter c = false -> RegExp.isWordCharacter (asciiLower c) = false.
Proof.
  unfold asciiLower. destruct (N.leb 65 c && N.leb c 90) eqn:E; [| auto].
  unfold RegExp.isWordCharacter. rewrite E. rewrite orb_true_r. simpl. discriminate.
Qed.

(** X21.  Text added after a comment cannot take its verdict away.  For
    ASCII text: when a body is actionable, so is the body followed by
    anything that starts with a character other than a letter, a digit or
    an underscore; and when the body is [fix_required]/[high], so is the
    longer one. *)
Theorem appended_text_keeps_the_verdict (lower : jsstring -> jsstring)
    (body more : jsstring) (sep : N) :
  lowersAscii lower ->
  forallb isAscii body = true ->
  forallb isAscii (sep :: more) = true ->
  RegExp.isWordCharacter sep = false ->
  (actionable (DataFetcherClassifier.isCommentActionable lower (Some body)) = true ->
   actionable (DataFetcherClassifier.isCommentActionable lower
                 (Some (body ++ sep :: more))) = true)
  /\ (DataFetcherClassifier.isCommentActionable lower (Some body)
      = verdict fix_required high ->
      DataFetcherClassifier.isCommentActionable lower (Some (body ++ sep :: more))
      = verdict fix_required high).
Proof.
  intros Hlower Hbody Hmore Hsep.
  assert (Hall : forallb isAscii (body ++ sep :: more) = true)
    by (rewrite forallb_app, Hbody; exact Hmore).
  assert (Hlow : lower (body ++ sep :: more)
                 = lower body ++ asciiLower sep :: map asciiLower more).
  { rewrite (Hlower _ Hall), (Hlower _ Hbody), map_app. reflexivity. }
  assert (Hext : forall group,
             anyPatternMatches group (lower body) = true ->
             anyPatternMatches group (lower (body ++ sep :: more)) = true).
  { intros group H. rewrite Hlow. apply anyPatternMatches_extended; [| exact H].
    now apply asciiLower_keeps_non_words. }
  destruct body as [|c text].
  - split; intros H; discriminate H.
  - split.
    + intros H. apply classify_actionable_iff in H.
      change ((c :: text) ++ sep :: more) with (c :: (text ++ sep :: more)).
      apply classify_actionable_iff.
      exact (Hext _ H).
    + intros H. apply high_wins; [exact Hlower |].
      apply anyPatternMatches_iff, Hext.
      rewrite classify_cascade in H. cbv zeta in H.
      destruct (anyPatternMatches DataFetcherClassifier.highSeverityPatterns
                  (lower (c :: text))); [reflexivity |].
      repeat match type of H with
             | context [if ?b then _ else _] => destruct b
             end; discriminate H.
Qed.

Lemma appended_text_keeps_the_verdict_witness :
  lowersAscii Demo.asciiToLowerCase
  /\ DataFetcherClassifier.isCommentActionable Demo.asciiToLowerCase
       (Some (js "this is broken")) = verdict fix_required high
  /\ DataFetcherClassifier.isCommentActionable Demo.asciiToLowerCase
       (Some (js "this is broken" ++ 46%N :: js " Could you add a test?"))
     = verdict fix_required high.
Proof.
  assert (Hhigh : DataFetcherClassifier.isCommentActionable Demo.asciiToLowerCase
                    (Some (js "this is broken")) = verdict fix_required high)
    by (vm_compute; reflexivity).
  destruct (appended_text_keeps_the_verdict Demo.asciiToLowerCase
              (js "this is broken") (js " Could you add a test?") 46%N
              asciiToLowerCase_lowersAscii eq_refl eq_refl eq_refl) as [_ Hkeep].
  split; [exact asciiToLowerCase_lowersAscii | split; [exact Hhigh | exact (Hkeep Hhigh)]].
Defined.

(** ** Pull requests whose comments could not be fetched *)

(** X22.  A pull request is listed in the snapshot only if all three of its
    comment fetches succeeded: one whose line comments, general comments or
    reviews could not be fetched is left out, as if it had no actionable
    comment at all. *)
Theorem listed_pull_requests_were_fetched_whole (w : World)
    (configured : list jsstring) (st st' : state) (allData : CacheSnapshot) :
  GitHubDataFetcher.fetchAllDataFrom w configured st = (Returns allData, st') ->
  forall r p, In r (repositories allData) -> In p (pullRequests r) ->
    gh_pulls_comments w (owner r) (name r) (pr_number (pr p)) <> None
    /\ gh_pr_view_comments w (owner r) (name r) (pr_number (pr p)) <> None
    /\ gh_pulls_reviews w (owner r) (name r) (pr_number (pr p)) <> None.
Proof.
  intros Hrun r p Hr Hp.
  pose proof (snapshot_summaries_wellFormed w configured st st' allData Hrun r Hr)
    as [_ Hwf].
  destruct (proj1 (Forall_forall _ _) Hwf p Hp) as (_ & _ & Hne).
  apply fetchAllDataFrom_returns in Hrun as (-> & _).
  unfold Denotation.snapshotOf in Hr; simpl in Hr.
  apply repositoryResults_origin in Hr as (i & repo & _ & _ & Hr).
  apply repositoryResult_shape in Hr as (Ho & Hn & listed & _ & Hprs).
  rewrite Hprs in Hp. apply summariesOf_origin in Hp as [_ Hcs].
  rewrite Ho, Hn. rewrite Hcs in Hne. unfold Denotation.fetchedComments in Hne.
  destruct (gh_pulls_comments w _ _ _); [| congruence].
  destruct (gh_pr_view_comments w _ _ _); [| congruence].
  destruct (gh_pulls_reviews w _ _ _); [| congruence].
  repeat split; discriminate.
Qed.

Lemma listed_pull_requests_were_fetched_whole_witness :
  (exists allData st' r,
      GitHubDataFetcher.fetchAllDataFrom Demo.world GitHubDataFetcher.reposToMonitor
        Demo.fresh = (Returns allData, st')
      /\ In r (repositories allData)
      /\ exists p, In p (pullRequests r)
                   /\ gh_pulls_reviews Demo.world (owner r) (name r) (pr_number (pr p))
                      <> None)
  /\ repositories
       (Denotation.snapshotOf Scenarios.reviewsDown 0 GitHubDataFetcher.reposToMonitor)
     = [].
Proof.
  split; [| vm_compute; reflexivity].
  pose (run := GitHubDataFetcher.fetchAllDataFrom Demo.world
                 GitHubDataFetcher.reposToMonitor Demo.fresh).
  pose (allData := Denotation.snapshotOf Demo.world 0 GitHubDataFetcher.reposToMonitor).
  assert (Hrun : run = (Returns allData, snd run)) by (vm_compute; reflexivity).
  destruct (repositories allData) as [|r rest] eqn:Erepos;
    [vm_compute in Erepos; discriminate Erepos |].
  destruct (pullRequests r) as [|p prs] eqn:Eprs.
  { exfalso. assert (E : match repositories allData with
                         | r0 :: _ => pullRequests r0
                         | [] => []
                         end = []) by (rewrite Erepos; exact Eprs).
    vm_compute in E. discriminate E. }
  assert (Hr : In r (repositories allData)) by (rewrite Erepos; now left).
  assert (Hp : In p (pullRequests r)) by (rewrite Eprs; now left).
  destruct (listed_pull_requests_were_fetched_whole Demo.world _ _ _ allData Hrun
              r p Hr Hp) as (_ & _ & Hreviews).
  exists allData, (snd run), r. split; [exact Hrun | split; [exact Hr |]].
  exists p. split; [exact Hp | exact Hreviews].
Defined.
